(** * nInstaller: a shallow embedding of [src/ninstaller.js]

    The script installs JavaScript resources listed in a remote manifest
    into a WebSQL database.  The embedding follows the source function by
    function:

    - descriptor objects live in a store ([Heap]) and arrays hold
      references to them, because [_fetchResources] writes the [content]
      property of the very objects the manifest arrays point to;
    - an exception is a value of [exn]; code that can throw returns a
      [Result] (pure code) or a [completion] (code that also changes the
      world);
    - asynchronous functions are written in continuation-passing style, as
      in the source: each takes the callback that it calls when it is done.
      A handler that the browser runs in a later turn (an [onload] handler,
      a WebSQL transaction) is run through [event], which reports an
      exception escaping from the handler on the console instead of
      handing it to the code that registered the handler.  A handler
      is run where it is registered rather than in a later turn: after
      it has started a request or a transaction, no function of the
      script does more than bind a local variable, so the order of the
      effects is the one of the browser. *)

From stdpp Require Import gmap strings list fin_maps.

Open Scope string_scope.
Open Scope list_scope.

(** ** Values *)

(** References to descriptor objects. *)
Abbreviation loc := positive.

(** The errors a run can raise: [TypeError] (a property read from
    [undefined] or [null]), [SyntaxError] (thrown by [JSON.parse]) and the
    [SQLError] that WebSQL hands to a transaction's error callback. *)
Inductive exn : Type := TypeError | SyntaxError | SQLError.

Inductive Result (A : Type) : Type :=
| Ok (a : A)
| Throw (e : exn).
Arguments Ok {A} a.
Arguments Throw {A} e.

Definition rbind {A B} (r : Result A) (f : A → Result B) : Result B :=
  match r with
  | Ok a => f a
  | Throw e => Throw e
  end.

Declare Scope result_scope.
Delimit Scope result_scope with result.
Notation "'let?' x := r 'in' k" := (rbind r (λ x, k))
  (at level 10, x name, r at level 100, k at level 200) : result_scope.
Open Scope result_scope.

(** One entry of a manifest: [{path: ..., md5: ..., time: ...}].  The
    [content] property is absent on an object that comes out of
    [JSON.parse] and is set by [_fetchResources]. *)
Record Descriptor : Type := {
  path : string;
  md5 : string;
  time : string;
  content : option string
}.

#[global] Instance Descriptor_eq_dec : EqDecision Descriptor.
Proof. solve_decision. Defined.

(** [val[key]]: the value of the property named [key], [None] for
    [undefined]. *)
Definition property (val : Descriptor) (key : string) : option string :=
  if decide (key = "path") then Some (path val)
  else if decide (key = "md5") then Some (md5 val)
  else if decide (key = "time") then Some (time val)
  else if decide (key = "content") then content val
  else None.

(** The name under which [result[v] = ...] stores: a string names itself,
    [undefined] becomes the name [undefined]. *)
Definition ToPropertyKey (v : option string) : string :=
  default "undefined" v.

(** The [js] section of a manifest.  [_calcNewResource] reads the list of
    a manifest under two names: [resources], the name manifests carry it
    under, and [resouces].  A manifest has the former; the latter is
    [None] ([undefined]) unless the document happens to have a property of
    that name too. *)
Record JsSection : Type := {
  resources : list loc;
  resouces : option (list loc)
}.

Record Manifest : Type := {
  js : JsSection
}.

(** The store of descriptor objects. *)
Abbreviation Heap := (gmap loc Descriptor).

(** Reading a property of the value behind [l].  A reference outside the
    store stands for a value that is not an object, and reading a property
    of it throws. *)
Definition deref (h : Heap) (l : loc) : Result Descriptor :=
  match h !! l with
  | Some d => Ok d
  | None => Throw TypeError
  end.

(** ** [bind] and [arrayToMap] *)

(** [bind(func, oThis)]: [func] with its [this] fixed.  Here [this] is the
    one [nInstaller] object, which every function receives with the world,
    so the bound function is the function itself. *)
Definition bind {F : Type} (func : F) : F := func.

(** [arrayToMap(array, key)]: the loop body [result[val[key]] = val] run
    over the elements from index 0 up.  The object [result] is the finite
    map of the properties that the loop gives it; the properties that
    every object inherits ([constructor], [toString] and the like) are
    left out, so a name that the loop has not stored reads as
    [undefined]. *)
Fixpoint arrayToMap_from (h : Heap) (array : list loc) (key : string)
    (result : gmap string loc) : Result (gmap string loc) :=
  match array with
  | [] => Ok result
  | l :: array' =>
      let? val := deref h l in
      arrayToMap_from h array' key (<[ToPropertyKey (property val key) := l]> result)
  end.

Definition arrayToMap (h : Heap) (array : list loc) (key : string)
    : Result (gmap string loc) :=
  arrayToMap_from h array key ∅.

(** ** [_calcNewResource] *)

(** The loop of the [else] branch: [resources] is the array built so far,
    [newResources] what is left to visit. *)
Fixpoint calc_loop (h : Heap) (currentResourcesMap : gmap string loc)
    (newResources : list loc) (resources : list loc) : Result (list loc) :=
  match newResources with
  | [] => Ok resources
  | l :: newResources' =>
      let? newResource := deref h l in
      match currentResourcesMap !! path newResource with
      | None => Throw TypeError
      | Some cl =>
          let? currentResource := deref h cl in
          if decide (md5 newResource ≠ md5 currentResource)
          then calc_loop h currentResourcesMap newResources' (resources ++ [l])
          else calc_loop h currentResourcesMap newResources' resources
      end
  end.

(** The body of [_calcNewResource] on the two fields it reads; [None] is
    [null].  [newManifest.js] on [null] throws, and so does
    [newResources.length] when [newManifest.js.resouces] is [undefined]. *)
Definition calcNewResource (h : Heap) (newManifest currentManifest : option Manifest)
    : Result (list loc) :=
  match currentManifest with
  | None =>
      match newManifest with
      | None => Throw TypeError
      | Some newManifest => Ok ([] ++ resources (js newManifest))
      end
  | Some currentManifest =>
      let? currentResourcesMap := arrayToMap h (resources (js currentManifest)) "path" in
      match newManifest with
      | None => Throw TypeError
      | Some newManifest =>
          match resouces (js newManifest) with
          | None => Throw TypeError
          | Some newResources => calc_loop h currentResourcesMap newResources []
          end
      end
  end.

(** ** The world a run acts on *)

(** A row of the table [js (path TEXT PRIMARY KEY, md5 TEXT, time TEXT,
    content TEXT)], without its key. *)
Record JsRow : Type := {
  row_md5 : string;
  row_time : string;
  row_content : option string
}.

(** The database [ninstaller]: the rows of the table [manifest (manifest
    TEXT)] in the order [SELECT *] returns them, and the table [js] by its
    primary key.  [None] is a table that has not been created. *)
Record Database : Type := {
  table_manifest : option (list string);
  table_js : option (gmap string JsRow)
}.

Inductive ConsoleEntry : Type :=
| console_error (e : exn)
| console_log (e : exn)
| uncaught (e : exn).

(** The fields of [global.nInstaller]; [None] is [null]. *)
Record Installer : Type := {
  _manifestUrl : option string;
  _newManifest : option Manifest;
  _currentManifest : option Manifest
}.

(** The argument list of a call between the steps of a run: the values
    handed on are arrays of descriptors. *)
Abbreviation Args := (list (list loc)).

Record World : Type := {
  nInstaller : Installer;
  heap : Heap;
  database : Database;
  requests : list string;        (* the URLs of the GET requests sent *)
  transactions : nat;            (* the transactions opened *)
  console : list ConsoleEntry;
  notifications : list Args      (* the calls the caller of [init] has received *)
}.

Definition set_installer (f : Installer → Installer) (w : World) : World :=
  {| nInstaller := f (nInstaller w); heap := heap w; database := database w;
     requests := requests w; transactions := transactions w;
     console := console w; notifications := notifications w |}.

Definition set_heap (f : Heap → Heap) (w : World) : World :=
  {| nInstaller := nInstaller w; heap := f (heap w); database := database w;
     requests := requests w; transactions := transactions w;
     console := console w; notifications := notifications w |}.

Definition set_database (f : Database → Database) (w : World) : World :=
  {| nInstaller := nInstaller w; heap := heap w; database := f (database w);
     requests := requests w; transactions := transactions w;
     console := console w; notifications := notifications w |}.

Definition set_requests (f : list string → list string) (w : World) : World :=
  {| nInstaller := nInstaller w; heap := heap w; database := database w;
     requests := f (requests w); transactions := transactions w;
     console := console w; notifications := notifications w |}.

Definition set_transactions (f : nat → nat) (w : World) : World :=
  {| nInstaller := nInstaller w; heap := heap w; database := database w;
     requests := requests w; transactions := f (transactions w);
     console := console w; notifications := notifications w |}.

Definition set_console (f : list ConsoleEntry → list ConsoleEntry) (w : World) : World :=
  {| nInstaller := nInstaller w; heap := heap w; database := database w;
     requests := requests w; transactions := transactions w;
     console := f (console w); notifications := notifications w |}.

Definition set_notifications (f : list Args → list Args) (w : World) : World :=
  {| nInstaller := nInstaller w; heap := heap w; database := database w;
     requests := requests w; transactions := transactions w;
     console := console w; notifications := f (notifications w) |}.

(** How a piece of code ends: normally with a value, or abruptly with an
    exception; either way in a new world. *)
Inductive completion (A : Type) : Type :=
| Normal (a : A) (w : World)
| Abrupt (e : exn) (w : World).
Arguments Normal {A} a w.
Arguments Abrupt {A} e w.

Definition world_of {A} (c : completion A) : World :=
  match c with
  | Normal _ w => w
  | Abrupt _ w => w
  end.

Abbreviation Callback := (Args → World → completion unit).

(** A handler the browser runs in a turn of its own: an exception that
    escapes from it is reported on the console and goes no further. *)
Definition event (handler : World → completion unit) (w : World) : World :=
  match handler w with
  | Normal _ w' => w'
  | Abrupt e w' => set_console (λ c, c ++ [uncaught e]) w'
  end.

(** ** What the browser provides *)

Inductive XhrOutcome : Type :=
| load (responseText : string)   (* the load event fires *)
| no_load.                       (* error, abort or timeout: it never fires *)

(** What [JSON.parse] makes of a manifest text, before its objects are
    given a place in the store. *)
Record ManifestDoc : Type := {
  doc_resources : list Descriptor;
  doc_resouces : option (list Descriptor)
}.

(** The parts of a run that the script does not decide:
    - [xhr_get n url]: what becomes of the [n]-th request of the run, a GET
      of [url];
    - [sql_fault n]: whether the storage refuses the [n]-th transaction
      (quota, disk error) before its callback runs;
    - [JSON_parse text]: what [JSON.parse] makes of a text, [Throw
      SyntaxError] for a text that is not JSON, [Ok None] for one that
      denotes [null], and the manifest for one that denotes a manifest;
      texts that denote other values are not in the type. *)
Record Browser : Type := {
  xhr_get : nat → string → XhrOutcome;
  sql_fault : nat → bool;
  JSON_parse : string → Result (option ManifestDoc)
}.

(** [JSON.parse] makes new objects: each descriptor goes to a reference
    that the store does not use yet. *)
Definition alloc (h : Heap) (d : Descriptor) : loc * Heap :=
  let l := fresh (dom h) in (l, <[l := d]> h).

Fixpoint alloc_array (h : Heap) (ds : list Descriptor) : list loc * Heap :=
  match ds with
  | [] => ([], h)
  | d :: ds' =>
      let '(l, h1) := alloc h d in
      let '(ls, h2) := alloc_array h1 ds' in
      (l :: ls, h2)
  end.

Definition alloc_manifest (h : Heap) (doc : ManifestDoc) : Manifest * Heap :=
  let '(rs, h1) := alloc_array h (doc_resources doc) in
  match doc_resouces doc with
  | None => ({| js := {| resources := rs; resouces := None |} |}, h1)
  | Some ds =>
      let '(rs', h2) := alloc_array h1 ds in
      ({| js := {| resources := rs; resouces := Some rs' |} |}, h2)
  end.

Definition alloc_parsed (doc : option ManifestDoc) (w : World) : option Manifest * World :=
  match doc with
  | None => (None, w)
  | Some doc =>
      let '(m, h) := alloc_manifest (heap w) doc in
      (Some m, set_heap (λ _, h) w)
  end.

(** How a transaction ends once its callbacks have run to [c]: it is
    committed and [success] called, or, after an exception, the database
    is put back to what it was in [w1], where the transaction began, and
    [error] called with an [SQLError]. *)
Definition settle (error : exn → World → completion unit)
    (success : World → completion unit) (w1 : World) (c : completion unit) : World :=
  match c with
  | Normal _ w2 => event success w2
  | Abrupt _ w2 => event (error SQLError) (set_database (λ _, database w1) w2)
  end.

(** [function error(e) { console.error(e); }] of [_loadCurrentManifest],
    which passes no success callback. *)
Definition loadCurrentManifest_error (e : exn) (w : World) : completion unit :=
  Normal tt (set_console (λ c, c ++ [console_error e]) w).

Definition no_success (w : World) : completion unit := Normal tt w.

(** [function error(e) { console.log(e); }] of [_saveResources]. *)
Definition saveResources_error (e : exn) (w : World) : completion unit :=
  Normal tt (set_console (λ c, c ++ [console_log e]) w).

Section Run.

Variable browser : Browser.

(** [xhr.onload = onload; xhr.open('GET', url, true); xhr.send()]. *)
Definition xhr_send (url : string) (onload : string → World → completion unit)
    (w : World) : World :=
  let n := length (requests w) in
  let w1 := set_requests (λ r, r ++ [url]) w in
  match xhr_get browser n url with
  | load responseText => event (onload responseText) w1
  | no_load => w1
  end.

(** [db.transaction(transaction, error, success)].  A transaction that the
    storage refuses goes to [error] at once; otherwise the callback runs
    (and, in it, the callbacks of its statements) and the transaction is
    settled. *)
Definition db_transaction (transaction : World → completion unit)
    (error : exn → World → completion unit)
    (success : World → completion unit) (w : World) : World :=
  let n := transactions w in
  let w1 := set_transactions S w in
  if sql_fault browser n then event (error SQLError) w1
  else settle error success w1 (transaction w1).

(** ** The steps of a run *)

(** [xhr.open('GET', manifestUrl)] with [manifestUrl] still [null] asks
    for the URL [null]. *)
Definition url_of (manifestUrl : option string) : string :=
  default "null" manifestUrl.

Definition _fetchNewManifest (callback : Callback) (w : World) : completion unit :=
  let manifestUrl := _manifestUrl (nInstaller w) in
  Normal tt
    (xhr_send (url_of manifestUrl)
       (λ manifestText w,
          match JSON_parse browser manifestText with
          | Throw e => Abrupt e w
          | Ok doc =>
              let '(m, w) := alloc_parsed doc w in
              let w := set_installer
                         (λ this, {| _manifestUrl := _manifestUrl this;
                                     _newManifest := m;
                                     _currentManifest := _currentManifest this |}) w in
              callback [] w
          end)
       w).

(** ['CREATE TABLE IF NOT EXISTS manifest (manifest TEXT)']. *)
Definition create_manifest (db : Database) : Database :=
  {| table_manifest := Some (default [] (table_manifest db));
     table_js := table_js db |}.

(** ['SELECT * from manifest']. *)
Definition select_manifest (db : Database) : list string :=
  default [] (table_manifest db).

Definition _loadCurrentManifest (callback : Callback) (w : World) : completion unit :=
  let transaction (w : World) : completion unit :=
    let w := set_database create_manifest w in
    match select_manifest (database w) with
    | [] => callback [] w
    | row :: _ =>
        match JSON_parse browser row with
        | Throw e => Abrupt e w
        | Ok doc =>
            let '(m, w) := alloc_parsed doc w in
            let w := set_installer
                       (λ this, {| _manifestUrl := _manifestUrl this;
                                   _newManifest := _newManifest this;
                                   _currentManifest := m |}) w in
            callback [] w
        end
    end in
  let error := loadCurrentManifest_error in
  Normal tt (db_transaction transaction error no_success w).

Definition _calcNewResource (w : World) : completion (list loc) :=
  match calcNewResource (heap w) (_newManifest (nInstaller w))
          (_currentManifest (nInstaller w)) with
  | Ok resources => Normal resources w
  | Throw e => Abrupt e w
  end.

(** [res.content = content]. *)
Definition set_content (res : loc) (text : string) (w : World) : Result World :=
  let? d := deref (heap w) res in
  Ok (set_heap (λ h, <[res := {| path := path d; md5 := md5 d; time := time d;
                                 content := Some text |}]> h) w).

(** The local function [fetch] of [_fetchResources]: [pending] is what is
    left of [resources] from [index] on, so [resources.length === index]
    is [pending = []] and [resources[index]] its head. *)
Fixpoint fetch (resources : list loc) (callback : Callback) (pending : list loc)
    (w : World) : completion unit :=
  match pending with
  | [] => callback [resources] w
  | res :: pending' =>
      match deref (heap w) res with
      | Throw e => Abrupt e w
      | Ok d =>
          Normal tt
            (xhr_send (path d)
               (λ text w,
                  match set_content res text w with
                  | Throw e => Abrupt e w
                  | Ok w => fetch resources callback pending' w
                  end)
               w)
      end
  end.

Definition _fetchResources (resources : list loc) (callback : Callback)
    (w : World) : completion unit :=
  fetch resources callback resources w.

(** ['CREATE TABLE IF NOT EXISTS js (...)']. *)
Definition create_js (db : Database) : Database :=
  {| table_manifest := table_manifest db;
     table_js := Some (default ∅ (table_js db)) |}.

(** ['INSERT OR REPLACE INTO js (path, md5, time, content) VALUES (?, ?, ?,
    ?)'] with [[res.path, res.md5, res.time, res.content]]. *)
Definition insert_or_replace (res : Descriptor) (db : Database) : Database :=
  {| table_manifest := table_manifest db;
     table_js :=
       (λ t, <[path res := {| row_md5 := md5 res; row_time := time res;
                              row_content := content res |}]> t) <$> table_js db |}.

Fixpoint save_loop (resources : list loc) (w : World) : completion unit :=
  match resources with
  | [] => Normal tt w
  | l :: resources' =>
      match deref (heap w) l with
      | Throw e => Abrupt e w
      | Ok res => save_loop resources' (set_database (insert_or_replace res) w)
      end
  end.

Definition _saveResources (resources : list loc) (callback : Callback)
    (w : World) : completion unit :=
  let transaction (w : World) : completion unit :=
    save_loop resources (set_database create_js w) in
  let error := saveResources_error in
  let success (w : World) : completion unit := callback [] w in
  Normal tt (db_transaction transaction error success w).

Definition _complete (callback : Callback) (w : World) : completion unit :=
  callback [] w.

End Run.

(** ** [CallbackSeq] and [init] *)

(** Modelled from the spec: the class [CallbackSeq] ([addAsync], [addSync],
    [start]) that [init] builds its run with is not among the sources.
    The spec describes the run as sequential callback chaining (manifest
    fetch, local load, diff, resource fetch, persist, notify): the steps
    run in the order they were added, an asynchronous step receives the
    callback that starts the next step with the arguments it is called
    with, and a synchronous step hands its return value to the next
    step. *)
Inductive Step : Type :=
| Async (func : Args → Callback → World → completion unit)
| Sync (func : Args → World → completion Args).

Abbreviation CallbackSeq := (list Step).

Definition addAsync (seq : CallbackSeq)
    (func : Args → Callback → World → completion unit) : CallbackSeq :=
  seq ++ [Async func].

Definition addSync (seq : CallbackSeq)
    (func : Args → World → completion Args) : CallbackSeq :=
  seq ++ [Sync func].

Fixpoint start (seq : CallbackSeq) (args : Args) (w : World) : completion unit :=
  match seq with
  | [] => Normal tt w
  | Async func :: seq' => func args (λ args' w', start seq' args' w') w
  | Sync func :: seq' =>
      match func args w with
      | Normal args' w' => start seq' args' w'
      | Abrupt e w' => Abrupt e w'
      end
  end.

Section Init.

Variable browser : Browser.

(** [func.apply(this, args.concat(callback))] for a step declared as
    [function(resources, callback)]: without a first argument
    [resources.length] is read from something that has none. *)
Definition with_resources {A} (func : list loc → World → completion A)
    (args : Args) (w : World) : completion A :=
  match args with
  | resources :: _ => func resources w
  | [] => Abrupt TypeError w
  end.

Definition init (manifestUrl : string) (callback : Callback) (w : World)
    : completion unit :=
  let w := set_installer
             (λ this, {| _manifestUrl := Some manifestUrl;
                         _newManifest := _newManifest this;
                         _currentManifest := _currentManifest this |}) w in
  let seq : CallbackSeq := [] in
  let seq := addAsync seq (λ _, bind (_fetchNewManifest browser)) in
  let seq := addAsync seq (λ _, bind (_loadCurrentManifest browser)) in
  let seq := addSync seq
               (λ _ w, match bind _calcNewResource w with
                       | Normal resources w => Normal [resources] w
                       | Abrupt e w => Abrupt e w
                       end) in
  let seq := addAsync seq
               (λ args callback,
                  with_resources (λ resources, bind (_fetchResources browser) resources callback) args) in
  let seq := addAsync seq
               (λ args callback,
                  with_resources (λ resources, bind (_saveResources browser) resources callback) args) in
  let seq := addSync seq
               (λ _ w, match bind _complete callback w with
                       | Normal _ w => Normal [] w
                       | Abrupt e w => Abrupt e w
                       end) in
  start seq [] w.

End Init.

(** * Notions used to state the properties *)

(** The name under which [arrayToMap] files the element behind [l]. *)
Definition key_at (h : Heap) (key : string) (l : loc) : option string :=
  (λ val, ToPropertyKey (property val key)) <$> h !! l.

(** Every element of the array is an object of the store. *)
Definition allocated (h : Heap) (array : list loc) : Prop :=
  Forall (λ l, is_Some (h !! l)) array.

(** The test of the loop of [_calcNewResource] on the element behind [l]:
    its [md5] differs from that of the entry that the lookup finds under
    its [path]. *)
Definition md5_differs (h : Heap) (currentResourcesMap : gmap string loc) (l : loc) : bool :=
  match h !! l with
  | Some newResource =>
      match currentResourcesMap !! path newResource with
      | Some cl =>
          match h !! cl with
          | Some currentResource =>
              bool_decide (md5 newResource ≠ md5 currentResource)
          | None => false
          end
      | None => false
      end
  | None => false
  end.

(** [ds] are the values behind the references [ls]. *)
Definition behind (h : Heap) (ls : list loc) (ds : list Descriptor) : Prop :=
  Forall2 (λ l d, h !! l = Some d) ls ds.

(** The diff as the spec words it (4.3), on the values of the descriptors:
    a descriptor of the incoming manifest is changed when the current
    manifest has no entry with its path, or has one whose content hash
    differs from its own. *)
Definition spec_changed (current : list Descriptor) (d : Descriptor) : bool :=
  match list_find (λ c, path c = path d) current with
  | None => true
  | Some (_, c) => bool_decide (md5 c ≠ md5 d)
  end.

(** Without a current manifest every descriptor is changed; the output
    keeps the order of the incoming manifest. *)
Definition spec_computeChanged (current : option (list Descriptor))
    (incoming : list Descriptor) : list Descriptor :=
  match current with
  | None => incoming
  | Some current => filter (λ d, spec_changed current d = true) incoming
  end.

(** [hands_over callback args w1 c]: [c] is how a step ends that calls
    [callback] with [args] in the world [w1], and does nothing of its own
    afterwards.  The call is made directly, from a handler that runs in a
    turn of its own, or from the statement callback of
    [_loadCurrentManifest]. *)
Inductive hands_over (callback : Callback) (args : Args) (w1 : World)
    : completion unit → Prop :=
| hands_over_call :
    hands_over callback args w1 (callback args w1)
| hands_over_event :
    hands_over callback args w1 (Normal tt (event (callback args) w1))
| hands_over_statement (w0 : World) :
    hands_over callback args w1
      (Normal tt (settle loadCurrentManifest_error no_success w0 (callback args w1))).

(** The step calls its callback, whatever it is, with [args] in [w1]. *)
Definition calls_back (step : Callback → World → completion unit) (w : World)
    (args : Args) (w1 : World) : Prop :=
  ∀ callback, hands_over callback args w1 (step callback w).

(** The step ends as [c] without calling its callback. *)
Definition halts (step : Callback → World → completion unit) (w : World)
    (c : completion unit) : Prop :=
  ∀ callback, step callback w = c.

(** [_loadCurrentManifest] goes on with [current] as the current
    manifest. *)
Definition returns_current (browser : Browser) (w : World)
    (current : option Manifest) : Prop :=
  ∃ w1, calls_back (_loadCurrentManifest browser) w [] w1 ∧
        _currentManifest (nInstaller w1) = current.

(** The requests that [_fetchResources] sends for [pending], starting in
    [w], all load. *)
Definition answered (browser : Browser) (w : World) (pending : list loc) : Prop :=
  ∀ i l d, pending !! i = Some l → heap w !! l = Some d →
           xhr_get browser (length (requests w) + i) (path d) ≠ no_load.

(** How [_fetchResources] on [ls] turns the store [h] into [h']: the
    objects are the same ones, the elements of [ls] have a [content], the
    text of a response to a request for their [path], and nothing else
    has changed. *)
Definition fetched (browser : Browser) (h h' : Heap) (ls : list loc) : Prop :=
  ∀ l, match h !! l with
       | None => h' !! l = None
       | Some d =>
           ∃ d', h' !! l = Some d' ∧
                 path d' = path d ∧ md5 d' = md5 d ∧ time d' = time d ∧
                 (l ∈ ls → ∃ n text, xhr_get browser n (path d) = load text ∧
                                     content d' = Some text) ∧
                 (l ∉ ls → d' = d)
       end.

(** A step ends with an error that its caller or the console gets to
    see. *)
Definition signals_error (w : World) (c : completion unit) : Prop :=
  (∃ e w', c = Abrupt e w') ∨ console (world_of c) ≠ console w.


(** C4 as the spec has it: an operation in which a retrieval fails ends
    with an error. *)
Definition fetch_failure_signalled (b : Browser) (resources : list loc) (w : World) : Prop :=
  ∀ callback, signals_error w (_fetchResources b resources callback w).

(** What a run may do to the record of notifications and to the console:
    nothing to the former, or one call without arguments, in a run that
    ends normally and leaves the console as it was. *)
Definition at_most_notified (w : World) (c : completion unit) : Prop :=
  notifications (world_of c) = notifications w ∨
  (notifications (world_of c) = notifications w ++ [[]] ∧
   console (world_of c) = console w ∧
   ∃ w', c = Normal tt w').

(** A handler that keeps to that in every world. *)
Definition tame (handler : World → completion unit) : Prop :=
  ∀ w, at_most_notified w (handler w).

(** The sequence that [init] builds, step by step. *)
Definition pipeline (b : Browser) (callback : Callback) : CallbackSeq :=
  [ Async (λ _, _fetchNewManifest b);
    Async (λ _, _loadCurrentManifest b);
    Sync (λ _ w, match _calcNewResource w with
                 | Normal resources w => Normal [resources] w
                 | Abrupt e w => Abrupt e w
                 end);
    Async (λ args callback,
             with_resources (λ resources, _fetchResources b resources callback) args);
    Async (λ args callback,
             with_resources (λ resources, _saveResources b resources callback) args);
    Sync (λ _ w, match _complete callback w with
                 | Normal _ w => Normal [] w
                 | Abrupt e w => Abrupt e w
                 end) ].

(** The conditions under which a first run goes through: the manifest
    loads and is a manifest, the two transactions are not refused, the
    table [manifest] holds no row, the page has no current manifest, and
    the requests for the resources load. *)
Definition first_run_ok (b : Browser) (manifestUrl : string) (w : World)
    (doc : ManifestDoc) : Prop :=
  (∃ text, xhr_get b (length (requests w)) manifestUrl = load text
           ∧ JSON_parse b text = Ok (Some doc))
  ∧ sql_fault b (transactions w) = false
  ∧ sql_fault b (S (transactions w)) = false
  ∧ select_manifest (database w) = []
  ∧ _currentManifest (nInstaller w) = None
  ∧ (∀ i d, doc_resources doc !! i = Some d →
            xhr_get b (S (length (requests w)) + i) (path d) ≠ no_load).


(** The code ends normally, in a world of which [P] holds. *)
Definition ends_with (P : World → Prop) (c : completion unit) : Prop :=
  ∃ w', c = Normal tt w' ∧ P w'.

(** ** The inputs of the examples *)

Definition a_h1 : Descriptor :=
  {| path := "a.js"; md5 := "h1"; time := "t1"; content := None |}.
Definition b_h2 : Descriptor :=
  {| path := "b.js"; md5 := "h2"; time := "t2"; content := None |}.
Definition b_h3 : Descriptor :=
  {| path := "b.js"; md5 := "h3"; time := "t3"; content := None |}.

(** Objects 1 and 2 are the entries of a stored manifest, 3 and 4 those of
    a new manifest in which [b.js] has changed, 5 and 6 those of a new
    manifest with the content of the stored one. *)
Definition store : Heap :=
  list_to_map [(1%positive, a_h1); (2%positive, b_h2);
               (3%positive, a_h1); (4%positive, b_h3);
               (5%positive, a_h1); (6%positive, b_h2)].

(** A manifest as it comes from a document [{js: {resources: [...]}}]. *)
Definition manifest_of (rs : list loc) : Manifest :=
  {| js := {| resources := rs; resouces := None |} |}.

(** A manifest from a document that carries its list under the name
    [resouces] as well. *)
Definition manifest_with_resouces (rs : list loc) : Manifest :=
  {| js := {| resources := rs; resouces := Some rs |} |}.

Definition empty_database : Database :=
  {| table_manifest := None; table_js := None |}.

(** The world of a page that has just loaded the script. *)
Definition fresh_world (h : Heap) (db : Database) : World :=
  {| nInstaller := {| _manifestUrl := None; _newManifest := None;
                      _currentManifest := None |};
     heap := h; database := db; requests := []; transactions := 0;
     console := []; notifications := [] |}.

(** The world in which [_calcNewResource] finds the two manifests. *)
Definition diff_world (h : Heap) (newManifest currentManifest : option Manifest) : World :=
  set_installer
    (λ this, {| _manifestUrl := _manifestUrl this;
                _newManifest := newManifest;
                _currentManifest := currentManifest |})
    (fresh_world h empty_database).

(** A callback that does nothing. *)
Definition pass : Callback := λ _ w, Normal tt w.

(** The callback of a caller that keeps a record of the calls it gets. *)
Definition notify : Callback :=
  λ args w, Normal tt (set_notifications (λ n, n ++ [args]) w).

Definition dq : string := String (Ascii.ascii_of_nat 34) EmptyString.

(** The JSON text of the document [{js: {resources: [{path: a.js, md5: h1,
    time: t1}]}}], with its double quotes. *)
Definition manifest_text : string :=
  "{" +:+ dq +:+ "js" +:+ dq +:+ ":{" +:+ dq +:+ "resources" +:+ dq +:+ ":[{"
  +:+ dq +:+ "path" +:+ dq +:+ ":" +:+ dq +:+ "a.js" +:+ dq +:+ ","
  +:+ dq +:+ "md5" +:+ dq +:+ ":" +:+ dq +:+ "h1" +:+ dq +:+ ","
  +:+ dq +:+ "time" +:+ dq +:+ ":" +:+ dq +:+ "t1" +:+ dq +:+ "}]}}".

Definition manifest_doc : ManifestDoc :=
  {| doc_resources := [a_h1]; doc_resouces := None |}.

(** [JSON.parse] on the texts of the examples: the manifest text, [null],
    and texts that are not JSON. *)
Definition parse_sample (text : string) : Result (option ManifestDoc) :=
  if decide (text = manifest_text) then Ok (Some manifest_doc)
  else if decide (text = "null") then Ok None
  else Throw SyntaxError.

(** A server that answers every request: the manifest text at
    [manifest.json], a comment with the URL elsewhere.  The storage works. *)
Definition browser_ok : Browser :=
  {| xhr_get := λ _ url,
       if decide (url = "manifest.json") then load manifest_text
       else load ("// " +:+ url);
     sql_fault := λ _, false;
     JSON_parse := parse_sample |}.

(** The same, with a storage that refuses every transaction. *)
Definition browser_storage_fault : Browser :=
  {| xhr_get := xhr_get browser_ok;
     sql_fault := λ _, true;
     JSON_parse := parse_sample |}.

(** The same as [browser_ok], with a server that is not reached for
    [b.js]. *)
Definition browser_b_fails : Browser :=
  {| xhr_get := λ n url,
       if decide (url = "b.js") then no_load else xhr_get browser_ok n url;
     sql_fault := λ _, false;
     JSON_parse := parse_sample |}.

(** A database whose table [manifest] holds one row with the given
    text. *)
Definition database_with (text : string) : Database :=
  {| table_manifest := Some [text]; table_js := None |}.


(** ** The vocabulary of the further properties *)

(** The path of the object behind [l], if it is one. *)
Definition path_at (h : Heap) (l : loc) : option string :=
  path <$> h !! l.

(** The row that ['INSERT OR REPLACE'] writes for a descriptor. *)
Definition row_of (d : Descriptor) : JsRow :=
  {| row_md5 := md5 d; row_time := time d; row_content := content d |}.

Definition row_at (h : Heap) (l : loc) : option JsRow :=
  row_of <$> h !! l.

(** The world in which [_fetchNewManifest] calls its callback when the
    text at [url] has been read as [doc]. *)
Definition manifest_fetched (url : string) (doc : option ManifestDoc) (w : World) : World :=
  let p := alloc_parsed doc (set_requests (λ r, r ++ [url]) w) in
  set_installer
    (λ this, {| _manifestUrl := _manifestUrl this;
                _newManifest := p.1;
                _currentManifest := _currentManifest this |})
    p.2.

(** The world in which [_loadCurrentManifest] calls its callback when the
    first row has been read as [doc]. *)
Definition manifest_loaded (doc : option ManifestDoc) (w : World) : World :=
  let p := alloc_parsed doc (set_database create_manifest (set_transactions S w)) in
  set_installer
    (λ this, {| _manifestUrl := _manifestUrl this;
                _newManifest := _newManifest this;
                _currentManifest := p.1 |})
    p.2.

(** What is left of the run of [init] after its first [n] steps. *)
Definition rest_of_run (n : nat) (b : Browser) (callback : Callback) : Callback :=
  λ args w, start (drop n (pipeline b callback)) args w.

(** The world in which [init] starts its sequence. *)
Definition init_world (manifestUrl : string) (w : World) : World :=
  set_installer
    (λ this, {| _manifestUrl := Some manifestUrl;
                _newManifest := _newManifest this;
                _currentManifest := _currentManifest this |}) w.

(** The same as [browser_ok], with a server that is not reached for
    [a.js]. *)
Definition browser_a_fails : Browser :=
  {| xhr_get := λ n url,
       if decide (url = "a.js") then no_load else xhr_get browser_ok n url;
     sql_fault := λ _, false;
     JSON_parse := parse_sample |}.

(** A server that answers every request with the text [null]. *)
Definition browser_null : Browser :=
  {| xhr_get := λ _ _, load "null";
     sql_fault := λ _, false;
     JSON_parse := parse_sample |}.

(** What a first run leaves in the table [js] and in the log of the
    requests: a row for each descriptor of the manifest [doc], with the
    text that its request brought, the other rows of [w] as they were, and
    one request for the manifest followed by one for each descriptor. *)
Definition installed (b : Browser) (manifestUrl : string) (doc : ManifestDoc)
    (w w' : World) : Prop :=
  ∃ t', table_js (database w') = Some t'
        ∧ (∀ i d, doc_resources doc !! i = Some d →
                  ∃ text, xhr_get b (S (length (requests w)) + i) (path d) = load text
                          ∧ t' !! path d
                            = Some {| row_md5 := md5 d; row_time := time d;
                                      row_content := Some text |})
        ∧ (∀ p, p ∉ path <$> doc_resources doc →
                t' !! p = default ∅ (table_js (database w)) !! p)
        ∧ requests w' = requests w ++ manifestUrl :: (path <$> doc_resources doc)
        ∧ transactions w' = S (S (transactions w)).

(** What the script knows in [w'] of an earlier installation is what it
    knew in [w]: the rows of the table [manifest] are the same and, when
    there are none, so is the current manifest. *)
Definition record_kept (w w' : World) : Prop :=
  select_manifest (database w') = select_manifest (database w)
  ∧ (select_manifest (database w) = [] →
     _currentManifest (nInstaller w') = _currentManifest (nInstaller w)).

(** A handler that keeps it in every world. *)
Definition keeps_record (handler : World → completion unit) : Prop :=
  ∀ w, record_kept w (world_of (handler w)).

(** * Properties *)

(** ** The store *)

(** [alloc] puts the object at a reference that was not in use. *)
Lemma alloc_new (h : Heap) (d : Descriptor) :
  h !! (alloc h d).1 = None ∧ (alloc h d).2 !! (alloc h d).1 = Some d.
Proof.
  unfold alloc. simpl. split.
  - apply not_elem_of_dom, is_fresh.
  - apply lookup_insert_eq.
Qed.

Lemma alloc_array_cons (h : Heap) (d : Descriptor) (ds : list Descriptor) :
  alloc_array h (d :: ds)
  = ((alloc h d).1 :: (alloc_array (alloc h d).2 ds).1,
     (alloc_array (alloc h d).2 ds).2).
Proof. simpl. by destruct (alloc_array _ ds). Qed.

(** The references that [alloc_array] returns hold the descriptors, and
    the objects that were in the store are still there. *)
Lemma alloc_array_behind (ds : list Descriptor) :
  ∀ h, behind (alloc_array h ds).2 (alloc_array h ds).1 ds
       ∧ ∀ l d, h !! l = Some d → (alloc_array h ds).2 !! l = Some d.
Proof.
  induction ds as [|d ds IH]; intros h.
  - split; [constructor|done].
  - rewrite alloc_array_cons.
    destruct (alloc_new h d) as [Hnew Hd].
    destruct (IH (alloc h d).2) as [Hbehind Hext]. simpl.
    split.
    + constructor; [by apply Hext|done].
    + intros l' d' Hl'. apply Hext. unfold alloc. simpl.
      rewrite lookup_insert_ne; [done|].
      intros Heq. unfold alloc in Hnew. simpl in Hnew. congruence.
Qed.

(** So do the resources of a manifest that [alloc_manifest] returns. *)
Lemma alloc_manifest_behind (h : Heap) (doc : ManifestDoc) :
  behind (alloc_manifest h doc).2 (resources (js (alloc_manifest h doc).1))
    (doc_resources doc).
Proof.
  unfold alloc_manifest.
  destruct (alloc_array_behind (doc_resources doc) h) as [Hbehind _].
  destruct (alloc_array h (doc_resources doc)) as [rs h1]. simpl in Hbehind.
  destruct (doc_resouces doc) as [ds|]; [|done].
  destruct (alloc_array_behind ds h1) as [_ Hext].
  destruct (alloc_array h1 ds) as [rs' h2]. simpl in *.
  eapply Forall2_impl; [exact Hbehind|]. intros l d. apply Hext.
Qed.

(** ** Callbacks called and not called *)

Lemma hands_over_pass (args : Args) (w1 : World) (c : completion unit) :
  hands_over pass args w1 c → c = Normal tt w1.
Proof. by intros []. Qed.

Lemma hands_over_notify (args : Args) (w1 : World) (c : completion unit) :
  hands_over notify args w1 c →
  c = Normal tt (set_notifications (λ n, n ++ [args]) w1).
Proof. by intros []. Qed.

(** A step calls its callback in one world only. *)
Lemma calls_back_world (step : Callback → World → completion unit) (w : World)
    (args : Args) (w1 w2 : World) :
  calls_back step w args w1 → calls_back step w args w2 → w1 = w2.
Proof.
  intros H1 H2.
  pose proof (hands_over_pass _ _ _ (H1 pass)) as E1.
  pose proof (hands_over_pass _ _ _ (H2 pass)) as E2.
  congruence.
Qed.

(** A step calls its callback with one argument list only. *)
Lemma calls_back_args (step : Callback → World → completion unit) (w : World)
    (args1 args2 : Args) (w1 w2 : World) :
  calls_back step w args1 w1 → calls_back step w args2 w2 → args1 = args2.
Proof.
  intros H1 H2.
  pose proof (hands_over_notify _ _ _ (H1 notify)) as E1.
  pose proof (hands_over_notify _ _ _ (H2 notify)) as E2.
  rewrite E1 in E2.
  apply (f_equal (λ c, notifications (world_of c))) in E2. simpl in E2.
  by apply app_inj_tail in E2 as [_ ?].
Qed.

(** A step that calls its callback does not end without it. *)
Lemma calls_back_not_halts (step : Callback → World → completion unit) (w : World)
    (args : Args) (w1 : World) (c : completion unit) :
  calls_back step w args w1 → halts step w c → False.
Proof.
  intros Hcall Hhalt.
  pose proof (hands_over_pass _ _ _ (Hcall pass)) as E1.
  pose proof (hands_over_notify _ _ _ (Hcall notify)) as E2.
  rewrite (Hhalt pass) in E1. rewrite (Hhalt notify) in E2.
  rewrite E1 in E2. injection E2 as E.
  apply (f_equal (λ w, length (notifications w))) in E. simpl in E.
  rewrite length_app in E. simpl in E. lia.
Qed.

(** What holds when the callback has ended holds when the step has. *)
Lemma hands_over_ends (k : Callback) (args : Args) (w1 : World) (c : completion unit)
    (P : World → Prop) :
  hands_over k args w1 c → ends_with P (k args w1) → ends_with P c.
Proof.
  intros Hover (w' & Hk & HP). destruct Hover.
  - by exists w'.
  - exists w'. unfold event. by rewrite Hk.
  - exists w'. unfold settle. by rewrite Hk.
Qed.

(** ** [arrayToMap] *)

Lemma arrayToMap_from_lookup (h : Heap) (key : string) (array : list loc) :
  ∀ m0 : gmap string loc,
    allocated h array →
    ∃ m, arrayToMap_from h array key m0 = Ok m ∧
         ∀ k, m !! k =
              match last (filter (λ l, key_at h key l = Some k) array) with
              | Some l => Some l
              | None => m0 !! k
              end.
Proof.
  induction array as [|l array IH]; intros m0 Hall.
  - exists m0. split; [done|]. intros k. by rewrite filter_nil.
  - apply Forall_cons in Hall as [[d Hd] Hall].
    destruct (IH (<[ToPropertyKey (property d key) := l]> m0) Hall)
      as (m & Hm & Hlook).
    exists m. split.
    { simpl. unfold deref. by rewrite Hd. }
    assert (key_at h key l = Some (ToPropertyKey (property d key))) as Hkl
      by (unfold key_at; by rewrite Hd).
    intros k. rewrite Hlook, filter_cons, Hkl.
    destruct (decide (Some (ToPropertyKey (property d key)) = Some k)) as [Hk|Hk].
    + rewrite last_cons.
      destruct (last (filter _ array)); [done|].
      simplify_eq. by rewrite lookup_insert_eq.
    + destruct (last (filter _ array)); [done|].
      rewrite lookup_insert_ne; [done|congruence].
Qed.

Lemma filter_same_key {A B} `{EqDecision B} (f : A → B) (xs : list A) (x : A) :
  NoDup (f <$> xs) → x ∈ xs → filter (λ y, f y = f x) xs = [x].
Proof.
  induction xs as [|y xs IH]; intros Hnd Hin.
  - by apply elem_of_nil in Hin.
  - rewrite fmap_cons in Hnd. apply NoDup_cons in Hnd as [Hy Hnd].
    rewrite filter_cons.
    apply elem_of_cons in Hin as [->|Hin].
    + rewrite decide_True by done. f_equal.
      destruct (filter (λ y0, f y0 = f y) xs) as [|z zs] eqn:Hf; [done|].
      assert (z ∈ filter (λ y0, f y0 = f y) xs) as Hz by (rewrite Hf; left).
      apply list_elem_of_filter in Hz as [Hz1 Hz2].
      exfalso. apply Hy. rewrite <- Hz1. by apply list_elem_of_fmap_2.
    + rewrite decide_False; [by apply IH|].
      intros Heq. apply Hy. rewrite Heq. by apply list_elem_of_fmap_2.
Qed.



(** Elements with the same key value: the later one is kept. *)
Example arrayToMap_duplicates :
  arrayToMap store [1; 2; 3; 4]%positive "path"
  = Ok (list_to_map [("a.js", 3%positive); ("b.js", 4%positive)]).
Proof. reflexivity. Qed.

(** A key that the elements do not have files them all under the name
    [undefined]. *)
Example arrayToMap_undefined_key :
  arrayToMap store [1; 2]%positive "name"
  = Ok (list_to_map [("undefined", 2%positive)]).
Proof. reflexivity. Qed.

(** ** [_calcNewResource] *)

Lemma arrayToMap_from_throws (h : Heap) (key : string) (array : list loc) :
  ∀ (m0 : gmap string loc) e, arrayToMap_from h array key m0 = Throw e → e = TypeError.
Proof.
  induction array as [|l array IH]; intros m0 e; simpl; [done|].
  unfold deref. destruct (h !! l); simpl; [apply IH|congruence].
Qed.

(** Whatever [calc_loop] throws is a [TypeError]. *)
Lemma calc_loop_throws (h : Heap) (m : gmap string loc) (news : list loc) :
  ∀ acc e, calc_loop h m news acc = Throw e → e = TypeError.
Proof.
  induction news as [|l news IH]; intros acc e; simpl; [done|].
  unfold deref. destruct (h !! l) as [n|]; simpl; [|congruence].
  destruct (m !! path n) as [cl|]; [|congruence].
  destruct (h !! cl) as [c|]; simpl; [|congruence].
  case_decide; apply IH.
Qed.

(** With a stored manifest, a new manifest that has its list under the
    name [resources] only makes [_calcNewResource] throw: the list it
    loops over is read under the name [resouces]. *)
Lemma calcNewResource_resouces_undefined (h : Heap) (incoming current : Manifest) :
  resouces (js incoming) = None →
  calcNewResource h (Some incoming) (Some current) = Throw TypeError.
Proof.
  intros Hr. unfold calcNewResource.
  destruct (arrayToMap h (resources (js current)) "path") as [m|e] eqn:Hm; simpl.
  - by rewrite Hr.
  - by rewrite (arrayToMap_from_throws _ _ _ _ _ Hm).
Qed.

(** When the loop does run, over a list whose paths all have an entry in
    the lookup, it keeps the elements whose [md5] differs, in order. *)
Lemma calc_loop_known (h : Heap) (m : gmap string loc) (news : list loc) :
  ∀ acc,
    (∀ l, l ∈ news → ∃ n cl c, h !! l = Some n ∧ m !! path n = Some cl ∧ h !! cl = Some c) →
    calc_loop h m news acc = Ok (acc ++ filter (λ l, md5_differs h m l = true) news).
Proof.
  induction news as [|l news IH]; intros acc Hknown; simpl.
  - by rewrite filter_nil, app_nil_r.
  - destruct (Hknown l) as (n & cl & c & Hn & Hcl & Hc); [left|].
    assert (md5_differs h m l = bool_decide (md5 n ≠ md5 c)) as Hdiff
      by (unfold md5_differs; by rewrite Hn, Hcl, Hc).
    assert (∀ l', l' ∈ news →
              ∃ n cl c, h !! l' = Some n ∧ m !! path n = Some cl ∧ h !! cl = Some c)
      as Hknown' by (intros l' Hl'; apply Hknown; by right).
    unfold deref. rewrite Hn; simpl. rewrite Hcl, Hc; simpl.
    destruct (decide (md5 n ≠ md5 c)) as [Hd|Hd].
    + rewrite filter_cons_True by (rewrite Hdiff; by apply bool_decide_eq_true).
      rewrite IH by done. by rewrite <- app_assoc.
    + rewrite filter_cons_False
        by (rewrite Hdiff; intros Hb; by apply bool_decide_eq_true in Hb).
      by apply IH.
Qed.


(** *** The loop against the diff of the spec *)

Lemma behind_allocated (h : Heap) (ls : list loc) (ds : list Descriptor) :
  behind h ls ds → allocated h ls.
Proof.
  induction 1 as [|l d ls ds Hl _ IH]; constructor; [by exists d|done].
Qed.

Lemma behind_key_at (h : Heap) (ls : list loc) (ds : list Descriptor) :
  behind h ls ds → key_at h "path" <$> ls = Some <$> (path <$> ds).
Proof.
  induction 1 as [|l d ls ds Hl _ IH]; [done|].
  rewrite !fmap_cons, IH. f_equal. unfold key_at. by rewrite Hl.
Qed.

(** With pairwise distinct paths, the lookup that [arrayToMap] builds and
    the search through the list find the same entry. *)
Lemma lookup_is_find (h : Heap) (ls : list loc) (ds : list Descriptor)
    (m : gmap string loc) (p : string) :
  behind h ls ds →
  NoDup (path <$> ds) →
  arrayToMap h ls "path" = Ok m →
  p ∈ path <$> ds →
  ∃ i lc dc, m !! p = Some lc ∧ h !! lc = Some dc ∧ path dc = p
             ∧ list_find (λ c, path c = p) ds = Some (i, dc).
Proof.
  intros Hbehind Hnd Hm (dc & -> & Hdc)%list_elem_of_fmap.
  apply list_elem_of_lookup in Hdc as [i Hi].
  destruct (Forall2_lookup_r _ _ _ _ _ Hbehind Hi) as (lc & Hlc & Hh).
  exists i, lc, dc.
  destruct (arrayToMap_from_lookup h "path" ls ∅ (behind_allocated _ _ _ Hbehind))
    as (m' & Hm' & Hlook).
  unfold arrayToMap in Hm. rewrite Hm' in Hm. injection Hm as ->.
  assert (key_at h "path" lc = Some (path dc)) as Hkey
    by (unfold key_at; by rewrite Hh).
  split; [|split; [done|split; [done|]]].
  - rewrite Hlook, <- Hkey.
    rewrite (filter_same_key (key_at h "path") ls lc); [done| |].
    + rewrite (behind_key_at _ _ _ Hbehind).
      apply (NoDup_fmap_2 _), Hnd.
    + by apply list_elem_of_lookup_2 in Hlc.
  - apply list_find_Some. split; [done|]. split; [done|].
    intros j dj Hj Hlt Hp.
    assert (i = j); [|lia].
    apply (NoDup_lookup _ _ _ (path dc) Hnd).
    + by rewrite list_lookup_fmap, Hi.
    + rewrite list_lookup_fmap, Hj. simpl. by rewrite Hp.
Qed.

Lemma behind_filter (h : Heap) (P : loc → Prop) (Q : Descriptor → Prop)
    `{∀ l, Decision (P l)} `{∀ d, Decision (Q d)} (ls : list loc) (ds : list Descriptor) :
  behind h ls ds →
  (∀ l d, l ∈ ls → h !! l = Some d → d ∈ ds → (P l ↔ Q d)) →
  behind h (filter P ls) (filter Q ds).
Proof.
  induction 1 as [|l d ls ds Hl _ IH]; intros Hpq; [constructor|].
  assert (behind h (filter P ls) (filter Q ds)) as IH'.
  { apply IH. intros l' d' Hl' Hd' Hin. apply Hpq; [by right|done|by right]. }
  rewrite !filter_cons.
  destruct (decide (P l)) as [Hp|Hp]; destruct (decide (Q d)) as [Hq|Hq]; try done.
  - by constructor.
  - exfalso. apply Hq. apply (Hpq l d); [left|done|left|done].
  - exfalso. apply Hp. apply (Hpq l d); [left|done|left|done].
Qed.

(** Where the loop runs and finds every path, it computes what the spec
    asks for: with the new list under the name [resouces] too, pairwise
    distinct paths in the current manifest and no path in the new one that
    the current one lacks, the result is the list of the changed
    descriptors, in order. *)
Lemma calcNewResource_known_paths (h : Heap) (cur_ls new_ls : list loc)
    (cur_ds new_ds : list Descriptor) :
  behind h cur_ls cur_ds → behind h new_ls new_ds →
  NoDup (path <$> cur_ds) →
  (∀ d, d ∈ new_ds → path d ∈ path <$> cur_ds) →
  ∃ out, calcNewResource h (Some (manifest_with_resouces new_ls))
           (Some (manifest_of cur_ls)) = Ok out
         ∧ behind h out (spec_computeChanged (Some cur_ds) new_ds).
Proof.
  intros Hcur Hnew Hnd Hknown.
  destruct (arrayToMap_from_lookup h "path" cur_ls ∅ (behind_allocated _ _ _ Hcur))
    as (m & Hm & _).
  assert (∀ l d, l ∈ new_ls → h !! l = Some d → d ∈ new_ds →
            ∃ i lc dc, m !! path d = Some lc ∧ h !! lc = Some dc ∧ path dc = path d
                       ∧ list_find (λ c, path c = path d) cur_ds = Some (i, dc))
    as Hfind.
  { intros l d _ _ Hd. apply (lookup_is_find h cur_ls cur_ds); auto. }
  exists (filter (λ l, md5_differs h m l = true) new_ls). split.
  - unfold calcNewResource, arrayToMap. simpl. rewrite Hm. simpl.
    rewrite calc_loop_known; [done|].
    intros l (i & Hi)%list_elem_of_lookup.
    destruct (Forall2_lookup_l _ _ _ _ _ Hnew Hi) as (d & Hd & Hl).
    destruct (Hfind l d) as (_ & lc & dc & Hlc & Hdc & _);
      [by eapply list_elem_of_lookup_2|done|by eapply list_elem_of_lookup_2|].
    by exists d, lc, dc.
  - simpl. apply behind_filter; [done|].
    intros l d Hl Hh Hd.
    destruct (Hfind l d Hl Hh Hd) as (i & lc & dc & Hlc & Hdc & _ & Hlf).
    unfold md5_differs, spec_changed. rewrite Hh, Hlc, Hdc, Hlf.
    rewrite !bool_decide_eq_true. split; intros Hne Heq; by apply Hne.
Qed.

Lemma filter_unchanged (cur ds : list Descriptor) :
  (∀ d, d ∈ ds → spec_changed cur d = false) →
  filter (λ d, spec_changed cur d = true) ds = [].
Proof.
  induction ds as [|d ds IH]; intros Hsame; [done|].
  rewrite filter_cons_False.
  - apply IH. intros d' Hd'. apply Hsame. by right.
  - rewrite Hsame; [done|left].
Qed.

(** Following the spec, a manifest has nothing changed against itself. *)
Lemma spec_computeChanged_identical (ds : list Descriptor) :
  NoDup (path <$> ds) → spec_computeChanged (Some ds) ds = [].
Proof.
  intros Hnd. simpl. apply filter_unchanged.
  { intros d (i & Hi)%list_elem_of_lookup. unfold spec_changed.
    assert (list_find (λ c, path c = path d) ds = Some (i, d)) as ->.
    { apply list_find_Some. split; [done|]. split; [done|].
      intros j dj Hj Hlt Hp.
      assert (i = j); [|lia].
      apply (NoDup_lookup _ _ _ (path d) Hnd).
      - by rewrite list_lookup_fmap, Hi.
      - rewrite list_lookup_fmap, Hj. simpl. by rewrite Hp. }
    apply bool_decide_eq_false. intros Hne. by apply Hne. }
Qed.

(** So does the loop, where it runs: for manifests of the same content it
    returns the empty list. *)
Lemma calcNewResource_identical (h : Heap) (cur_ls new_ls : list loc)
    (ds : list Descriptor) :
  behind h cur_ls ds → behind h new_ls ds →
  NoDup (path <$> ds) →
  calcNewResource h (Some (manifest_with_resouces new_ls))
    (Some (manifest_of cur_ls)) = Ok [].
Proof.
  intros Hcur Hnew Hnd.
  destruct (calcNewResource_known_paths h cur_ls new_ls ds ds Hcur Hnew Hnd)
    as (out & Hout & Hbehind).
  { intros d Hd. by apply list_elem_of_fmap_2. }
  rewrite (spec_computeChanged_identical ds Hnd) in Hbehind.
  apply Forall2_nil_inv_r in Hbehind. by rewrite Hbehind in Hout.
Qed.

(** C7. When there is no current manifest, [_calcNewResource] returns the
    resources of the new manifest, all of them and in their order. *)
Theorem calcNewResource_full_install (w : World) (incoming : Manifest) :
  _newManifest (nInstaller w) = Some incoming →
  _currentManifest (nInstaller w) = None →
  _calcNewResource w = Normal (resources (js incoming)) w.
Proof.
  intros Hnew Hcur. unfold _calcNewResource, calcNewResource.
  by rewrite Hnew, Hcur.
Qed.

Lemma calcNewResource_full_install_witness :
  _calcNewResource (diff_world store (Some (manifest_of [3; 4]%positive)) None)
  = Normal [3; 4]%positive (diff_world store (Some (manifest_of [3; 4]%positive)) None).
Proof.
  apply (calcNewResource_full_install
           (diff_world store (Some (manifest_of [3; 4]%positive)) None)
           (manifest_of [3; 4]%positive)); reflexivity.
Defined.

(** C1. A new manifest lists [a.js], the current manifest is there and has
    no entry for it: the diff of the spec is [a.js], and
    [_calcNewResource] throws a [TypeError] where the claim wants [a.js]
    in its result.  It throws when it reads the length
    of [newManifest.js.resouces], which is [undefined]; and if the
    document has its list under that name too, it throws when it reads
    [md5] from the entry that the lookup does not have. *)
Theorem calcNewResource_new_descriptor_throws :
  let current := Some (manifest_of []) in
  behind store [3%positive] [a_h1]
  ∧ spec_computeChanged (Some []) [a_h1] = [a_h1]
  ∧
  _calcNewResource (diff_world store (Some (manifest_of [3%positive])) current)
  = Abrupt TypeError (diff_world store (Some (manifest_of [3%positive])) current)
  ∧
  _calcNewResource (diff_world store (Some (manifest_with_resouces [3%positive])) current)
  = Abrupt TypeError (diff_world store (Some (manifest_with_resouces [3%positive])) current).
Proof.
  split; [by repeat constructor|].
  repeat split; reflexivity.
Qed.

(** C8. The current manifest has [a.js] and [b.js], the new one the same
    [a.js] and a changed [b.js]: the diff of the spec is [b.js] alone, and
    [_calcNewResource] throws a [TypeError] where the claim wants that
    result. *)
Theorem calcNewResource_changed_descriptor_throws :
  let current := Some (manifest_of [1; 2]%positive) in
  let incoming := Some (manifest_of [3; 4]%positive) in
  behind store [1; 2]%positive [a_h1; b_h2]
  ∧ behind store [3; 4]%positive [a_h1; b_h3]
  ∧ spec_computeChanged (Some [a_h1; b_h2]) [a_h1; b_h3] = [b_h3]
  ∧ _calcNewResource (diff_world store incoming current)
    = Abrupt TypeError (diff_world store incoming current).
Proof.
  split; [by repeat constructor|].
  split; [by repeat constructor|].
  split; reflexivity.
Qed.

(** What the loop makes of the same manifests when the new one has its
    list under the name the loop reads. *)
Example calcNewResource_changed_descriptor_loop :
  calcNewResource store (Some (manifest_with_resouces [3; 4]%positive))
    (Some (manifest_of [1; 2]%positive))
  = Ok [4%positive].
Proof. reflexivity. Qed.

(** C3. The new manifest has the content of the current one: the diff of
    the spec is empty, and [_calcNewResource] throws a [TypeError] where
    the claim wants an empty result. *)
Theorem identical_manifests_throw :
  let current := Some (manifest_of [1; 2]%positive) in
  let incoming := Some (manifest_of [5; 6]%positive) in
  behind store [1; 2]%positive [a_h1; b_h2]
  ∧ behind store [5; 6]%positive [a_h1; b_h2]
  ∧ spec_computeChanged (Some [a_h1; b_h2]) [a_h1; b_h2] = []
  ∧ _calcNewResource (diff_world store incoming current)
    = Abrupt TypeError (diff_world store incoming current).
Proof.
  split; [by repeat constructor|].
  split; [by repeat constructor|].
  split; reflexivity.
Qed.

(** What the loop makes of the same manifests when the new one has its
    list under the name the loop reads. *)
Example calcNewResource_identical_loop :
  calcNewResource store (Some (manifest_with_resouces [5; 6]%positive))
    (Some (manifest_of [1; 2]%positive))
  = Ok [].
Proof. reflexivity. Qed.

(** ** [_fetchResources] *)

Lemma set_content_allocated (res : loc) (text : string) (w : World) (d : Descriptor) :
  heap w !! res = Some d →
  set_content res text w
  = Ok (set_heap (λ h, <[res := {| path := path d; md5 := md5 d; time := time d;
                                   content := Some text |}]> h) w).
Proof. intros Hd. unfold set_content, deref. by rewrite Hd. Qed.

Lemma allocated_insert (h : Heap) (ls : list loc) (l : loc) (d : Descriptor) :
  allocated h ls → allocated (<[l := d]> h) ls.
Proof.
  unfold allocated. intros Hall. eapply Forall_impl; [exact Hall|].
  intros l' Hl'. simpl. rewrite lookup_insert_is_Some.
  destruct (decide (l = l')); auto.
Qed.

(** The chain of requests, request by request: when all of them load,
    the callback is called in the end, from the last [onload] handler. *)
Lemma fetch_answered (b : Browser) (pending : list loc) :
  ∀ w, allocated (heap w) pending → answered b w pending →
  ∃ w', (∀ resources callback,
           hands_over callback [resources] w' (fetch b resources callback pending w))
        ∧ fetched b (heap w) (heap w') pending
        ∧ nInstaller w' = nInstaller w ∧ database w' = database w
        ∧ console w' = console w ∧ notifications w' = notifications w
        ∧ transactions w' = transactions w.
Proof.
  induction pending as [|res pending IH]; intros w Hall Hans.
  - exists w. split; [intros; constructor|].
    split; [|done].
    intros l. destruct (heap w !! l) as [d|] eqn:Hd; [|done].
    exists d. repeat split; try done. intros Hl. by apply elem_of_nil in Hl.
  - apply Forall_cons in Hall as [[d Hd] Hall].
    destruct (xhr_get b (length (requests w)) (path d)) as [text|] eqn:Hx; cycle 1.
    { exfalso. apply (Hans 0 res d); [done|done|]. by rewrite Nat.add_0_r. }
    set (dc := {| path := path d; md5 := md5 d; time := time d; content := Some text |}).
    set (w1 := set_requests (λ r, r ++ [path d]) w).
    set (w2 := set_heap (λ h, <[res := dc]> h) w1).
    destruct (IH w2) as (w' & Hover & Hfetched & Hi & Hdb & Hc & Hn & Ht).
    { by apply allocated_insert. }
    { intros i l d0 Hi Hl. simpl in Hl.
      replace (length (requests w2) + i) with (length (requests w) + S i)
        by (simpl; rewrite length_app; simpl; lia).
      destruct (decide (l = res)) as [->|Hne].
      - rewrite lookup_insert_eq in Hl. injection Hl as <-.
        by apply (Hans (S i) res d).
      - rewrite lookup_insert_ne in Hl by done.
        by apply (Hans (S i) l d0). }
    exists w'. split; [|split; [|done]].
    + intros resources callback. simpl. unfold deref. rewrite Hd.
      unfold xhr_send. rewrite Hx. unfold event at 1.
      rewrite (set_content_allocated res text _ d) by done.
      fold dc w1 w2.
      destruct (Hover resources callback).
      * apply hands_over_event.
      * apply hands_over_event.
      * apply hands_over_statement.
    + intros l. specialize (Hfetched l). simpl in Hfetched.
      destruct (decide (l = res)) as [->|Hne].
      * rewrite Hd. rewrite lookup_insert_eq in Hfetched.
        destruct Hfetched as (d' & Hd' & Hp & Hm & Ht' & Hin & Hout).
        exists d'. repeat split; try done.
        -- intros _. destruct (decide (res ∈ pending)) as [Hr|Hr].
           ++ by apply Hin.
           ++ rewrite (Hout Hr). by exists (length (requests w)), text.
        -- intros Hr. exfalso. apply Hr. left.
      * rewrite lookup_insert_ne in Hfetched by done.
        destruct (heap w !! l) as [dl|]; [|done].
        destruct Hfetched as (d' & Hd' & Hp & Hm & Ht' & Hin & Hout).
        exists d'. repeat split; try done.
        -- intros Hl. apply Hin. apply elem_of_cons in Hl as [?|?]; done.
        -- intros Hl. apply Hout. intros Hl'. apply Hl. by right.
Qed.

(** When one of them does not load, the chain ends there. *)
Lemma fetch_unanswered (b : Browser) (pending : list loc) :
  ∀ w i l d,
    allocated (heap w) pending →
    pending !! i = Some l → heap w !! l = Some d →
    xhr_get b (length (requests w) + i) (path d) = no_load →
    ∃ w', (∀ resources callback, fetch b resources callback pending w = Normal tt w')
          ∧ nInstaller w' = nInstaller w ∧ database w' = database w
          ∧ console w' = console w ∧ notifications w' = notifications w
          ∧ transactions w' = transactions w.
Proof.
  induction pending as [|res pending IH]; intros w i l d Hall Hi Hl Hx; [done|].
  apply Forall_cons in Hall as [[d0 Hd0] Hall].
  destruct (xhr_get b (length (requests w)) (path d0)) as [text|] eqn:Hx0.
  - destruct i as [|i].
    { simpl in Hi. injection Hi as ->. rewrite Nat.add_0_r in Hx. congruence. }
    simpl in Hi.
    set (dc := {| path := path d0; md5 := md5 d0; time := time d0; content := Some text |}).
    set (w1 := set_requests (λ r, r ++ [path d0]) w).
    set (w2 := set_heap (λ h, <[res := dc]> h) w1).
    assert (∃ d2, heap w2 !! l = Some d2 ∧ path d2 = path d) as (d2 & Hd2 & Hp).
    { simpl. destruct (decide (l = res)) as [->|Hne].
      - rewrite lookup_insert_eq. exists dc. split; [done|]. simpl. congruence.
      - rewrite lookup_insert_ne by done. by exists d. }
    destruct (IH w2 i l d2) as (w' & Hhalt & Hrest); try done.
    { by apply allocated_insert. }
    { rewrite Hp. simpl. rewrite length_app. simpl.
      by replace (length (requests w) + 1 + i) with (length (requests w) + S i) by lia. }
    exists w'. split; [|done].
    intros resources callback. simpl. unfold deref. rewrite Hd0.
    unfold xhr_send. rewrite Hx0. unfold event.
    rewrite (set_content_allocated res text _ d0) by done.
    fold dc w1 w2. by rewrite Hhalt.
  - exists (set_requests (λ r, r ++ [path d0]) w). split; [|done].
    intros resources callback. simpl. unfold deref. rewrite Hd0.
    unfold xhr_send. by rewrite Hx0.
Qed.

(** The requests for a list all load, or one of them does not. *)
Lemma answered_or_not (b : Browser) (h : Heap) (pending : list loc) :
  ∀ n,
    (∀ i l d, pending !! i = Some l → h !! l = Some d →
              xhr_get b (n + i) (path d) ≠ no_load)
    ∨ (∃ i l d, pending !! i = Some l ∧ h !! l = Some d ∧
                xhr_get b (n + i) (path d) = no_load).
Proof.
  induction pending as [|res pending IH]; intros n; [by left|].
  destruct (IH (S n)) as [Hrest|(i & l & d & Hi & Hl & Hx)].
  - destruct (h !! res) as [d|] eqn:Hd.
    + destruct (xhr_get b (n + 0) (path d)) as [text|] eqn:Hx.
      * left. intros [|i] l d' Hi Hl.
        -- simpl in Hi. injection Hi as <-. rewrite Hd in Hl. injection Hl as <-.
           by rewrite Hx.
        -- simpl in Hi. rewrite Nat.add_succ_r. by apply (Hrest i l d').
      * right. by exists 0, res, d.
    + left. intros [|i] l d' Hi Hl.
      * simpl in Hi. congruence.
      * simpl in Hi. rewrite Nat.add_succ_r. by apply (Hrest i l d').
  - right. exists (S i), l, d. by rewrite Nat.add_succ_r.
Qed.

(** C9. [_fetchResources] works on the objects it is given.  When the
    requests all load it calls its callback; and whenever it calls its
    callback, it is with the array it was given, the same references in
    the same order, and the objects behind them are the ones that were
    there, each now with a [content] (the text of a response for its
    [path]) and with its [path], [md5] and [time] as before; no other
    object has changed, and neither have the installer, the database, the
    console or the caller's record. *)
Theorem fetchResources_in_place (b : Browser) (resources : list loc) (w : World) :
  allocated (heap w) resources →
  (answered b w resources →
   ∃ w', calls_back (_fetchResources b resources) w [resources] w')
  ∧
  (∀ args w',
     calls_back (_fetchResources b resources) w args w' →
     args = [resources]
     ∧ fetched b (heap w) (heap w') resources
     ∧ nInstaller w' = nInstaller w ∧ database w' = database w
     ∧ console w' = console w ∧ notifications w' = notifications w).
Proof.
  intros Hall. split.
  - intros Hans.
    destruct (fetch_answered b resources w Hall Hans) as (w' & Hover & _).
    exists w'. intros callback. apply Hover.
  - intros args w' Hcall.
    destruct (answered_or_not b (heap w) resources (length (requests w)))
      as [Hans|(i & l & d & Hi & Hl & Hx)].
    + destruct (fetch_answered b resources w Hall Hans)
        as (w1 & Hover & Hfetched & Hin & Hdb & Hc & Hn & _).
      assert (calls_back (_fetchResources b resources) w [resources] w1) as Hcall1
        by (intros callback; apply Hover).
      pose proof (calls_back_args _ _ _ _ _ _ Hcall Hcall1) as ->.
      by rewrite (calls_back_world _ _ _ _ _ Hcall Hcall1).
    + exfalso.
      destruct (fetch_unanswered b resources w i l d Hall Hi Hl Hx) as (w1 & Hhalt & _).
      apply (calls_back_not_halts _ _ _ _ (Normal tt w1) Hcall).
      intros callback. apply Hhalt.
Qed.

Lemma fetchResources_in_place_witness :
  let w := fresh_world store empty_database in
  (∃ w', calls_back (_fetchResources browser_ok [3; 4]%positive) w [[3; 4]%positive] w')
  ∧
  (∀ args w',
     calls_back (_fetchResources browser_ok [3; 4]%positive) w args w' →
     args = [[3; 4]%positive]
     ∧ fetched browser_ok store (heap w') [3; 4]%positive
     ∧ nInstaller w' = nInstaller w ∧ database w' = empty_database
     ∧ console w' = [] ∧ notifications w' = []).
Proof.
  destruct (fetchResources_in_place browser_ok [3; 4]%positive
              (fresh_world store empty_database)) as [Hcalled Hplace].
  - repeat constructor; vm_compute; eauto.
  - split; [|exact Hplace].
    apply Hcalled. intros i l d _ _. simpl. case_decide; discriminate.
Defined.


(** C4, as the code has it.  When the request for one of the resources
    never loads, [_fetchResources] returns normally and never calls its
    callback: no result reaches the caller, in part or whole, and no error
    either, neither to the caller nor on the console; the database and
    the caller's record are as they were. *)
Theorem fetchResources_failure_is_silent (b : Browser) (resources : list loc)
    (w : World) (i : nat) (l : loc) (d : Descriptor) :
  allocated (heap w) resources →
  resources !! i = Some l → heap w !! l = Some d →
  xhr_get b (length (requests w) + i) (path d) = no_load →
  ∃ w', halts (_fetchResources b resources) w (Normal tt w')
        ∧ console w' = console w ∧ database w' = database w
        ∧ notifications w' = notifications w ∧ nInstaller w' = nInstaller w.
Proof.
  intros Hall Hi Hl Hx.
  destruct (fetch_unanswered b resources w i l d Hall Hi Hl Hx)
    as (w' & Hhalt & Hin & Hdb & Hc & Hn & _).
  exists w'. split; [|done].
  intros callback. apply Hhalt.
Qed.

Lemma fetchResources_failure_is_silent_witness :
  ∃ w', halts (_fetchResources browser_b_fails [3; 4]%positive)
          (fresh_world store empty_database) (Normal tt w')
        ∧ console w' = [] ∧ database w' = empty_database
        ∧ notifications w' = []
        ∧ nInstaller w' = nInstaller (fresh_world store empty_database).
Proof.
  apply (fetchResources_failure_is_silent browser_b_fails [3; 4]%positive
           (fresh_world store empty_database) 1 4%positive b_h3);
    reflexivity || (repeat constructor; vm_compute; eauto).
Defined.

(** C4, as the spec has it, fails: [a.js] loads and the request for [b.js]
    does not, and [_fetchResources] ends normally with nothing said. *)
Lemma fetch_failure_not_signalled :
  ¬ fetch_failure_signalled browser_b_fails [3; 4]%positive
      (fresh_world store empty_database).
Proof.
  intros H. destruct (H notify) as [(e & w' & He)|Hc].
  - vm_compute in He. discriminate.
  - apply Hc. reflexivity.
Qed.

(** ** [_fetchNewManifest] *)

(** A manifest text that loads and that [JSON.parse] accepts. *)
Lemma fetchNewManifest_parsed (b : Browser) (w : World) (text : string)
    (doc : option ManifestDoc) :
  xhr_get b (length (requests w)) (url_of (_manifestUrl (nInstaller w))) = load text →
  JSON_parse b text = Ok doc →
  calls_back (_fetchNewManifest b) w []
    (set_installer
       (λ this, {| _manifestUrl := _manifestUrl this;
                   _newManifest :=
                     (alloc_parsed doc
                        (set_requests (λ r, r ++ [url_of (_manifestUrl (nInstaller w))]) w)).1;
                   _currentManifest := _currentManifest this |})
       (alloc_parsed doc
          (set_requests (λ r, r ++ [url_of (_manifestUrl (nInstaller w))]) w)).2).
Proof.
  intros Hx Hparse callback. unfold _fetchNewManifest, xhr_send.
  rewrite Hx. unfold event at 1. rewrite Hparse.
  destruct (alloc_parsed doc _) as [m w1]. apply hands_over_event.
Qed.

(** ** [_loadCurrentManifest] *)

Lemma select_create_manifest (db : Database) :
  select_manifest (create_manifest db) = select_manifest db.
Proof. done. Qed.

(** A transaction that the storage refuses. *)
Lemma loadCurrentManifest_fault (b : Browser) (w : World) :
  sql_fault b (transactions w) = true →
  halts (_loadCurrentManifest b) w
    (Normal tt (set_console (λ c, c ++ [console_error SQLError]) (set_transactions S w))).
Proof.
  intros Hf callback. unfold _loadCurrentManifest, db_transaction. by rewrite Hf.
Qed.

(** No row: the callback is called with the current manifest left as it
    is. *)
Lemma loadCurrentManifest_empty (b : Browser) (w : World) :
  sql_fault b (transactions w) = false →
  select_manifest (database w) = [] →
  calls_back (_loadCurrentManifest b) w []
    (set_database create_manifest (set_transactions S w)).
Proof.
  intros Hf Hrows callback. unfold _loadCurrentManifest, db_transaction.
  rewrite Hf. simpl. rewrite select_create_manifest, Hrows.
  apply hands_over_statement.
Qed.


(** A first row that [JSON.parse] rejects. *)
Lemma loadCurrentManifest_corrupt (b : Browser) (w : World) (row : string)
    (rows : list string) (e : exn) :
  sql_fault b (transactions w) = false →
  select_manifest (database w) = row :: rows →
  JSON_parse b row = Throw e →
  halts (_loadCurrentManifest b) w
    (Normal tt (set_console (λ c, c ++ [console_error SQLError])
                  (set_database (λ _, database w)
                     (set_database create_manifest (set_transactions S w))))).
Proof.
  intros Hf Hrows Hparse callback. unfold _loadCurrentManifest, db_transaction.
  rewrite Hf. simpl. by rewrite select_create_manifest, Hrows, Hparse.
Qed.




(** A row that is not JSON: the error goes to the console, the callback is
    not called. *)
Example loadCurrentManifest_corrupt_row :
  let w := fresh_world ∅ (database_with "{oops") in
  let w1 := world_of (_loadCurrentManifest browser_ok notify w) in
  console w1 = [console_error SQLError] ∧ notifications w1 = []
  ∧ database w1 = database w.
Proof. repeat split; reflexivity. Qed.


(** ** [_saveResources] *)

Lemma save_loop_manifest (resources : list loc) :
  ∀ w, table_manifest (database (world_of (save_loop resources w)))
       = table_manifest (database w).
Proof.
  induction resources as [|l resources IH]; intros w; simpl; [done|].
  destruct (deref (heap w) l); [|done]. by rewrite IH.
Qed.

(** Whatever becomes of the transaction, when [_saveResources] calls its
    callback or gives up the table [manifest] is what it was. *)
Lemma saveResources_keeps_manifest (b : Browser) (resources : list loc) (w : World) :
  (∃ w2, calls_back (_saveResources b resources) w [] w2
         ∧ table_manifest (database w2) = table_manifest (database w))
  ∨ (∃ w2, halts (_saveResources b resources) w (Normal tt w2)
           ∧ database w2 = database w).
Proof.
  unfold calls_back, halts, _saveResources, db_transaction.
  destruct (sql_fault b (transactions w)); [right; by eexists|].
  pose proof (save_loop_manifest resources (set_database create_js (set_transactions S w)))
    as Hm.
  destruct (save_loop resources _) as [[] w2|e w2]; simpl in *.
  - left. exists w2. split; [|done]. intros callback. apply hands_over_event.
  - right. by eexists.
Qed.



(** C2. The new manifest lists [a.js] and [b.js] and there is no current
    one; the two are fetched and [_saveResources] commits them: it calls
    its callback and their rows are in the table [js].  The new manifest is
    not stored with them: the table [manifest] has no row, and the next
    [_loadCurrentManifest] goes on without a current manifest where the
    claim wants it to return the new one.  A commit of no resources leaves
    the table without a row as well. *)
Theorem commit_leaves_manifest_unstored :
  let w0 := diff_world store (Some (manifest_of [3; 4]%positive)) None in
  let w1 := world_of (_fetchResources browser_ok [3; 4]%positive pass w0) in
  let w2 := world_of (_saveResources browser_ok [3; 4]%positive notify w1) in
  notifications w2 = [[]]
  ∧ (table_js (database w2) ≫= (λ t, t !! "b.js"))
    = Some {| row_md5 := "h3"; row_time := "t3"; row_content := Some "// b.js" |}
  ∧ _newManifest (nInstaller w2) = Some (manifest_of [3; 4]%positive)
  ∧ select_manifest (database w2) = []
  ∧ returns_current browser_ok w2 None
  ∧ select_manifest (database (world_of (_saveResources browser_ok [] notify w0))) = [].
Proof.
  repeat split; try reflexivity.
  eexists. split; [by apply loadCurrentManifest_empty|]. reflexivity.
Qed.

(** ** [init] *)


Lemma at_most_notified_quiet (w : World) (c : completion unit) :
  notifications (world_of c) = notifications w → at_most_notified w c.
Proof. by left. Qed.




Lemma save_loop_record (resources : list loc) :
  ∀ w, notifications (world_of (save_loop resources w)) = notifications w
       ∧ console (world_of (save_loop resources w)) = console w.
Proof.
  induction resources as [|l resources IH]; intros w; simpl; [done|].
  destruct (deref (heap w) l); [|done].
  by destruct (IH (set_database (insert_or_replace a) w)).
Qed.

Lemma tame_complete : tame (_complete notify).
Proof. intros w. right. simpl. eauto. Qed.












(** A first run that completes: one call, no error. *)
Example init_first_run :
  let w1 := world_of (init browser_ok "manifest.json" notify
                        (fresh_world ∅ empty_database)) in
  notifications w1 = [[]] ∧ console w1 = []
  ∧ requests w1 = ["manifest.json"; "a.js"].
Proof. repeat split; reflexivity. Qed.

(** The run with the storage fault: an error, no call. *)
Example init_storage_fault :
  let w1 := world_of (init browser_storage_fault "manifest.json" notify
                        (fresh_world ∅ empty_database)) in
  notifications w1 = [] ∧ console w1 = [console_error SQLError].
Proof. repeat split; reflexivity. Qed.

(** A run over a database that holds the text of the remote manifest: the
    exception of [_calcNewResource] rolls the transaction of
    [_loadCurrentManifest] back and goes to the console; nothing is fetched
    or committed and the caller is not notified. *)
Example init_unchanged_manifest :
  let w0 := fresh_world ∅ (database_with manifest_text) in
  let w1 := world_of (init browser_ok "manifest.json" notify w0) in
  console w1 = [console_error SQLError] ∧ notifications w1 = []
  ∧ requests w1 = ["manifest.json"] ∧ database w1 = database w0.
Proof. repeat split; reflexivity. Qed.

(** A second run after a first one that completed: the first has left no
    manifest behind, and the second fetches [a.js] again. *)
Example init_twice :
  let w1 := world_of (init browser_ok "manifest.json" notify
                        (fresh_world ∅ empty_database)) in
  let w2 := world_of (init browser_ok "manifest.json" notify w1) in
  notifications w2 = [[]; []] ∧ console w2 = []
  ∧ _currentManifest (nInstaller w2) = None
  ∧ requests w2 = ["manifest.json"; "a.js"; "manifest.json"; "a.js"].
Proof. repeat split; reflexivity. Qed.


(** * Further properties of the steps *)

(** ** More on [arrayToMap] and [_calcNewResource] *)





(** X2. With a current manifest, the loop of [_calcNewResource] reads the
    incoming list from [js.resouces]; a new manifest without that property
    makes it throw a [TypeError], whatever [js.resources] holds, and the
    world is left as it was. *)
Theorem calcNewResource_resouces_missing (w : World) (incoming current : Manifest) :
  _newManifest (nInstaller w) = Some incoming →
  _currentManifest (nInstaller w) = Some current →
  resouces (js incoming) = None →
  _calcNewResource w = Abrupt TypeError w.
Proof.
  intros Hnew Hcur Hr. unfold _calcNewResource. rewrite Hnew, Hcur.
  by rewrite calcNewResource_resouces_undefined.
Qed.

Lemma calcNewResource_resouces_missing_witness :
  let w := diff_world store (Some (manifest_of [3; 4]%positive))
             (Some (manifest_of [1; 2]%positive)) in
  _calcNewResource w = Abrupt TypeError w.
Proof.
  apply (calcNewResource_resouces_missing
           (diff_world store (Some (manifest_of [3; 4]%positive))
              (Some (manifest_of [1; 2]%positive)))
           (manifest_of [3; 4]%positive) (manifest_of [1; 2]%positive));
    reflexivity.
Defined.





(** X5. Where the code returns, it is the diff of the spec: when the incoming
    list is under [js.resouces], the current paths are distinct and every
    incoming path is among them, [_calcNewResource] returns the references
    of the descriptors that [spec_computeChanged] returns on the values. *)
Theorem calcNewResource_refines_spec (w : World) (incoming current : Manifest)
    (newResources : list loc) (cur_ds new_ds : list Descriptor) :
  _newManifest (nInstaller w) = Some incoming →
  _currentManifest (nInstaller w) = Some current →
  resouces (js incoming) = Some newResources →
  behind (heap w) (resources (js current)) cur_ds →
  behind (heap w) newResources new_ds →
  NoDup (path <$> cur_ds) →
  (∀ d, d ∈ new_ds → path d ∈ path <$> cur_ds) →
  ∃ out, _calcNewResource w = Normal out w
         ∧ behind (heap w) out (spec_computeChanged (Some cur_ds) new_ds).
Proof.
  intros Hnew Hcur Hr Hbc Hbn Hnd Hknown.
  destruct (calcNewResource_known_paths (heap w) (resources (js current))
              newResources cur_ds new_ds Hbc Hbn Hnd Hknown) as (out & Hout & Hbehind).
  exists out. split; [|done].
  unfold _calcNewResource. rewrite Hnew, Hcur.
  unfold calcNewResource in *. simpl in Hout. rewrite Hr.
  by rewrite Hout.
Qed.

Lemma calcNewResource_refines_spec_witness :
  let w := diff_world store (Some (manifest_with_resouces [3; 4]%positive))
             (Some (manifest_of [1; 2]%positive)) in
  ∃ out, _calcNewResource w = Normal out w
         ∧ behind (heap w) out (spec_computeChanged (Some [a_h1; b_h2]) [a_h1; b_h3]).
Proof.
  apply (calcNewResource_refines_spec
           (diff_world store (Some (manifest_with_resouces [3; 4]%positive))
              (Some (manifest_of [1; 2]%positive)))
           (manifest_with_resouces [3; 4]%positive) (manifest_of [1; 2]%positive)
           [3; 4]%positive [a_h1; b_h2] [a_h1; b_h3]); try reflexivity.
  - by repeat constructor.
  - by repeat constructor.
  - by apply (bool_decide_unpack _).
  - intros d Hd. apply (bool_decide_unpack _).
    apply elem_of_cons in Hd as [->|Hd]; [done|].
    apply elem_of_cons in Hd as [->|Hd]; [done|].
    by apply elem_of_nil in Hd.
Defined.

(** ** More on [_saveResources] *)

(** The loop of the transaction changes the database only. *)
Lemma save_loop_frame (resources : list loc) :
  ∀ w, heap (world_of (save_loop resources w)) = heap w
       ∧ nInstaller (world_of (save_loop resources w)) = nInstaller w
       ∧ requests (world_of (save_loop resources w)) = requests w
       ∧ transactions (world_of (save_loop resources w)) = transactions w.
Proof.
  induction resources as [|l resources IH]; intros w; simpl; [done|].
  destruct (deref (heap w) l) as [d|]; [|done].
  by destruct (IH (set_database (insert_or_replace d) w)) as (-> & -> & -> & ->).
Qed.

Lemma save_loop_Normal (resources : list loc) :
  ∀ w w2, save_loop resources w = Normal tt w2 → allocated (heap w) resources.
Proof.
  induction resources as [|l resources IH]; intros w w2; simpl; [constructor|].
  unfold deref. destruct (heap w !! l) as [d|] eqn:Hd; [|done].
  intros Hloop. constructor; [by exists d|]. by apply (IH _ _ Hloop).
Qed.

(** The rows after the loop: under each path the row of the last resource
    that has it, and the rows that were there under the other paths. *)
Lemma save_loop_rows (resources : list loc) :
  ∀ w t,
    allocated (heap w) resources →
    table_js (database w) = Some t →
    ∃ w2 t2, save_loop resources w = Normal tt w2
             ∧ table_js (database w2) = Some t2
             ∧ ∀ p, t2 !! p =
                    match last (filter (λ l, path_at (heap w) l = Some p) resources) with
                    | Some l => row_at (heap w) l
                    | None => t !! p
                    end.
Proof.
  induction resources as [|l resources IH]; intros w t Hall Ht; simpl.
  - by exists w, t.
  - apply Forall_cons in Hall as [[d Hd] Hall].
    unfold deref. rewrite Hd.
    destruct (IH (set_database (insert_or_replace d) w) (<[path d := row_of d]> t) Hall)
      as (w2 & t2 & Hloop & Ht2 & Hrows).
    { simpl. by rewrite Ht. }
    exists w2, t2. split; [done|]. split; [done|].
    assert (path_at (heap w) l = Some (path d)) as Hpl
      by (unfold path_at; by rewrite Hd).
    intros p. rewrite Hrows. simpl. rewrite filter_cons, Hpl.
    destruct (decide (Some (path d) = Some p)) as [Hp|Hp].
    + rewrite last_cons.
      destruct (last (filter _ resources)); [done|].
      injection Hp as <-. rewrite lookup_insert_eq. unfold row_at. by rewrite Hd.
    + destruct (last (filter _ resources)); [done|].
      rewrite lookup_insert_ne; [done|congruence].
Qed.

(** A commit with a storage that works. *)
Lemma saveResources_commit (b : Browser) (resources : list loc) (w : World) :
  sql_fault b (transactions w) = false →
  allocated (heap w) resources →
  ∃ w2 t2,
    calls_back (_saveResources b resources) w [] w2
    ∧ table_js (database w2) = Some t2
    ∧ (∀ p, t2 !! p =
            match last (filter (λ l, path_at (heap w) l = Some p) resources) with
            | Some l => row_at (heap w) l
            | None => default ∅ (table_js (database w)) !! p
            end)
    ∧ table_manifest (database w2) = table_manifest (database w)
    ∧ heap w2 = heap w ∧ nInstaller w2 = nInstaller w
    ∧ requests w2 = requests w ∧ console w2 = console w
    ∧ notifications w2 = notifications w
    ∧ transactions w2 = S (transactions w).
Proof.
  intros Hf Hall.
  set (w1 := set_database create_js (set_transactions S w)).
  destruct (save_loop_rows resources w1 (default ∅ (table_js (database w))) Hall)
    as (w2 & t2 & Hloop & Ht2 & Hrows); [done|].
  pose proof (save_loop_frame resources w1) as (Hh & Hi & Hr & Ht).
  pose proof (save_loop_record resources w1) as [Hn Hc].
  pose proof (save_loop_manifest resources w1) as Hm.
  rewrite Hloop in *. simpl in *.
  exists w2, t2. split; [|done].
  intros callback. unfold _saveResources, db_transaction.
  rewrite Hf. fold w1. rewrite Hloop. apply hands_over_event.
Qed.

(** X6. A transaction that the storage accepts, on resources that are objects,
    is committed and the callback called without arguments.  The table
    [js] then has, under each path, the row of the last resource with that
    path, and under every other path the row it had; the table [manifest],
    the store, the installer, the requests, the console and the record of
    notifications are what they were. *)
Theorem saveResources_upserts (b : Browser) (resources : list loc) (w : World) :
  sql_fault b (transactions w) = false →
  allocated (heap w) resources →
  ∃ w2 t2,
    calls_back (_saveResources b resources) w [] w2
    ∧ table_js (database w2) = Some t2
    ∧ (∀ p, t2 !! p =
            match last (filter (λ l, path_at (heap w) l = Some p) resources) with
            | Some l => row_at (heap w) l
            | None => default ∅ (table_js (database w)) !! p
            end)
    ∧ table_manifest (database w2) = table_manifest (database w)
    ∧ heap w2 = heap w ∧ nInstaller w2 = nInstaller w
    ∧ requests w2 = requests w ∧ console w2 = console w
    ∧ notifications w2 = notifications w.
Proof.
  intros Hf Hall.
  destruct (saveResources_commit b resources w Hf Hall)
    as (w2 & t2 & ? & ? & ? & ? & ? & ? & ? & ? & ? & ?).
  by exists w2, t2.
Qed.

Lemma saveResources_upserts_witness :
  let w := fresh_world store empty_database in
  ∃ w2 t2,
    calls_back (_saveResources browser_ok [1; 2; 4]%positive) w [] w2
    ∧ table_js (database w2) = Some t2
    ∧ (∀ p, t2 !! p =
            match last (filter (λ l, path_at (heap w) l = Some p) [1; 2; 4]%positive) with
            | Some l => row_at (heap w) l
            | None => default ∅ (table_js (database w)) !! p
            end)
    ∧ table_manifest (database w2) = table_manifest (database w)
    ∧ heap w2 = heap w ∧ nInstaller w2 = nInstaller w
    ∧ requests w2 = requests w ∧ console w2 = console w
    ∧ notifications w2 = notifications w.
Proof.
  apply (saveResources_upserts browser_ok [1; 2; 4]%positive
           (fresh_world store empty_database)).
  - reflexivity.
  - repeat constructor; vm_compute; eauto.
Defined.

(** X7. A transaction that the storage refuses, or whose loop meets a resource
    that is not an object, is rolled back: the callback is not called, the
    database is what it was, and the only trace is one [console.log] of
    the error. *)
Theorem saveResources_refused (b : Browser) (resources : list loc) (w : World) :
  sql_fault b (transactions w) = true ∨ ¬ allocated (heap w) resources →
  ∃ w', halts (_saveResources b resources) w (Normal tt w')
        ∧ database w' = database w
        ∧ console w' = console w ++ [console_log SQLError]
        ∧ heap w' = heap w ∧ nInstaller w' = nInstaller w
        ∧ requests w' = requests w ∧ notifications w' = notifications w.
Proof.
  intros Hwhy. unfold halts, _saveResources, db_transaction.
  destruct (sql_fault b (transactions w)) eqn:Hf.
  { eexists. split; [done|]. done. }
  destruct Hwhy as [?|Hnot]; [done|].
  set (w1 := set_database create_js (set_transactions S w)).
  pose proof (save_loop_frame resources w1) as (Hh & Hi & Hr & Ht).
  pose proof (save_loop_record resources w1) as [Hn Hc].
  destruct (save_loop resources w1) as [[] w2|e w2] eqn:Hloop.
  - exfalso. apply Hnot. by apply (save_loop_Normal _ _ _ Hloop).
  - simpl in *. eexists. split; [done|]. simpl.
    by rewrite Hh, Hi, Hr, Hn, Hc.
Qed.

Lemma saveResources_refused_witness :
  let w := fresh_world store empty_database in
  ∃ w', halts (_saveResources browser_storage_fault [1; 2]%positive) w (Normal tt w')
        ∧ database w' = database w
        ∧ console w' = console w ++ [console_log SQLError]
        ∧ heap w' = heap w ∧ nInstaller w' = nInstaller w
        ∧ requests w' = requests w ∧ notifications w' = notifications w.
Proof.
  apply (saveResources_refused browser_storage_fault [1; 2]%positive
           (fresh_world store empty_database)).
  left. reflexivity.
Defined.

(** X8. Saving the same resources a second time changes nothing: after two
    committed transactions the database is that after the first. *)
Theorem saveResources_twice (b : Browser) (resources : list loc) (w : World) :
  sql_fault b (transactions w) = false →
  sql_fault b (S (transactions w)) = false →
  allocated (heap w) resources →
  ∃ w2 w3,
    calls_back (_saveResources b resources) w [] w2
    ∧ calls_back (_saveResources b resources) w2 [] w3
    ∧ database w3 = database w2.
Proof.
  intros Hf1 Hf2 Hall.
  destruct (saveResources_commit b resources w Hf1 Hall)
    as (w2 & t2 & Hcall2 & Ht2 & Hrows2 & Hm2 & Hh2 & _ & _ & _ & _ & Htx).
  destruct (saveResources_commit b resources w2)
    as (w3 & t3 & Hcall3 & Ht3 & Hrows3 & Hm3 & _); [by rewrite Htx|by rewrite Hh2|].
  exists w2, w3. split; [done|]. split; [done|].
  assert (t3 = t2) as ->.
  { apply map_eq. intros p. rewrite Hrows3, Ht2, Hh2. simpl.
    rewrite Hrows2. by destruct (last _). }
  destruct (database w3), (database w2). simpl in *. congruence.
Qed.

Lemma saveResources_twice_witness :
  let w := fresh_world store empty_database in
  ∃ w2 w3,
    calls_back (_saveResources browser_ok [1; 2; 4]%positive) w [] w2
    ∧ calls_back (_saveResources browser_ok [1; 2; 4]%positive) w2 [] w3
    ∧ database w3 = database w2.
Proof.
  apply (saveResources_twice browser_ok [1; 2; 4]%positive
           (fresh_world store empty_database)); try reflexivity.
  repeat constructor; vm_compute; eauto.
Defined.

(** ** More on [_fetchResources] *)

Lemma path_at_insert (h : Heap) (res : loc) (d dc : Descriptor) (l : loc) :
  h !! res = Some d → path dc = path d →
  path_at (<[res := dc]> h) l = path_at h l.
Proof.
  intros Hd Hp. unfold path_at.
  destruct (decide (l = res)) as [->|Hne].
  - rewrite lookup_insert_eq, Hd. simpl. by rewrite Hp.
  - by rewrite lookup_insert_ne.
Qed.

Lemma omap_path_at_insert (h : Heap) (res : loc) (d dc : Descriptor) (ls : list loc) :
  h !! res = Some d → path dc = path d →
  omap (path_at (<[res := dc]> h)) ls = omap (path_at h) ls.
Proof.
  intros Hd Hp. induction ls as [|l ls IH]; [done|].
  simpl. rewrite (path_at_insert h res d dc l Hd Hp).
  destruct (path_at h l); [f_equal|]; exact IH.
Qed.

Lemma omap_path_at_cons (h : Heap) (l : loc) (d : Descriptor) (ls : list loc) :
  h !! l = Some d → omap (path_at h) (l :: ls) = path d :: omap (path_at h) ls.
Proof. intros Hd. simpl. unfold path_at at 1. by rewrite Hd. Qed.

(** One more response written to an object, seen from the store before
    it. *)
Lemma fetched_step (b : Browser) (h h' : Heap) (res : loc) (d : Descriptor)
    (n : nat) (text : string) (ls : list loc) :
  h !! res = Some d →
  xhr_get b n (path d) = load text →
  fetched b (<[res := {| path := path d; md5 := md5 d; time := time d;
                         content := Some text |}]> h) h' ls →
  fetched b h h' (res :: ls).
Proof.
  intros Hd Hx Hfetched l. specialize (Hfetched l).
  destruct (decide (l = res)) as [->|Hne].
  - rewrite Hd. rewrite lookup_insert_eq in Hfetched.
    destruct Hfetched as (d' & Hd' & Hp & Hm & Ht' & Hin & Hout).
    exists d'. repeat split; try done.
    + intros _. destruct (decide (res ∈ ls)) as [Hr|Hr].
      * by apply Hin.
      * rewrite (Hout Hr). by exists n, text.
    + intros Hr. exfalso. apply Hr. left.
  - rewrite lookup_insert_ne in Hfetched by done.
    destruct (h !! l) as [dl|]; [|done].
    destruct Hfetched as (d' & Hd' & Hp & Hm & Ht' & Hin & Hout).
    exists d'. repeat split; try done.
    + intros Hl. apply Hin. apply elem_of_cons in Hl as [?|?]; done.
    + intros Hl. apply Hout. intros Hl'. apply Hl. by right.
Qed.

Lemma fetched_refl (b : Browser) (h : Heap) : fetched b h h [].
Proof.
  intros l. destruct (h !! l) as [d|] eqn:Hd; [|done].
  exists d. repeat split; try done. intros Hl. by apply elem_of_nil in Hl.
Qed.

(** The chain when every request loads: the requests go out in the order
    of the array, one for each element, and an object that the array
    holds once has the text of the request made for it. *)
Lemma fetch_bodies (b : Browser) (pending : list loc) :
  ∀ w, allocated (heap w) pending → answered b w pending →
  ∃ w', (∀ resources callback,
           hands_over callback [resources] w' (fetch b resources callback pending w))
        ∧ requests w' = requests w ++ omap (path_at (heap w)) pending
        ∧ (∀ l, l ∉ pending → heap w' !! l = heap w !! l)
        ∧ (NoDup pending →
           ∀ i l d, pending !! i = Some l → heap w !! l = Some d →
                    ∃ text, xhr_get b (length (requests w) + i) (path d) = load text
                            ∧ heap w' !! l
                              = Some {| path := path d; md5 := md5 d; time := time d;
                                        content := Some text |})
        ∧ nInstaller w' = nInstaller w ∧ database w' = database w
        ∧ console w' = console w ∧ notifications w' = notifications w
        ∧ transactions w' = transactions w.
Proof.
  induction pending as [|res pending IH]; intros w Hall Hans.
  - exists w. split; [intros; constructor|].
    split; [by rewrite app_nil_r|]. split; [done|]. split; [|done].
    intros _ i l d Hi. done.
  - apply Forall_cons in Hall as [[d Hd] Hall].
    destruct (xhr_get b (length (requests w)) (path d)) as [text|] eqn:Hx; cycle 1.
    { exfalso. apply (Hans 0 res d); [done|done|]. by rewrite Nat.add_0_r. }
    set (dc := {| path := path d; md5 := md5 d; time := time d; content := Some text |}).
    set (w1 := set_requests (λ r, r ++ [path d]) w).
    set (w2 := set_heap (λ h, <[res := dc]> h) w1).
    destruct (IH w2) as (w' & Hover & Hreq & Hframe & Hbodies & Hrest).
    { by apply allocated_insert. }
    { intros i l d0 Hi Hl. simpl in Hl.
      replace (length (requests w2) + i) with (length (requests w) + S i)
        by (simpl; rewrite length_app; simpl; lia).
      destruct (decide (l = res)) as [->|Hne].
      - rewrite lookup_insert_eq in Hl. injection Hl as <-.
        by apply (Hans (S i) res d).
      - rewrite lookup_insert_ne in Hl by done.
        by apply (Hans (S i) l d0). }
    exists w'. split; [|split; [|split; [|split; [|exact Hrest]]]].
    + intros resources callback. simpl. unfold deref. rewrite Hd.
      unfold xhr_send. rewrite Hx. unfold event at 1.
      rewrite (set_content_allocated res text _ d) by done.
      fold dc w1 w2.
      destruct (Hover resources callback).
      * apply hands_over_event.
      * apply hands_over_event.
      * apply hands_over_statement.
    + rewrite Hreq, (omap_path_at_cons _ _ _ _ Hd).
      change (heap w2) with (<[res := dc]> (heap w)).
      rewrite (omap_path_at_insert (heap w) res d dc pending Hd eq_refl).
      change (requests w2) with (requests w ++ [path d]).
      by rewrite <- app_assoc.
    + intros l Hl. rewrite Hframe by (intros ?; apply Hl; by right).
      simpl. rewrite lookup_insert_ne; [done|]. intros ->. apply Hl. left.
    + intros [Hres Hnd]%NoDup_cons [|i] l d0 Hi Hl; simpl in Hi.
      * injection Hi as <-. rewrite Hd in Hl. injection Hl as <-.
        exists text. rewrite Nat.add_0_r. split; [done|].
        rewrite (Hframe res Hres). simpl. by rewrite lookup_insert_eq.
      * assert (l ≠ res) as Hne
          by (intros ->; apply Hres; by eapply list_elem_of_lookup_2).
        destruct (Hbodies Hnd i l d0 Hi) as (text' & Hx' & Hl').
        { simpl. by rewrite lookup_insert_ne. }
        exists text'. split; [|done].
        replace (length (requests w) + S i) with (length (requests w2) + i)
          by (simpl; rewrite length_app; simpl; lia).
        done.
Qed.

(** X9. When every request loads, [_fetchResources] calls back with the array
    it was given, after one request for each element, in the order of the
    array; and when the elements are distinct objects, the i-th one keeps
    its [path], [md5] and [time] and has as [content] the text of the i-th
    of these requests. *)
Theorem fetchResources_bodies (b : Browser) (resources : list loc) (w : World) :
  allocated (heap w) resources →
  answered b w resources →
  ∃ w', calls_back (_fetchResources b resources) w [resources] w'
        ∧ requests w' = requests w ++ omap (path_at (heap w)) resources
        ∧ (NoDup resources →
           ∀ i l d, resources !! i = Some l → heap w !! l = Some d →
                    ∃ text, xhr_get b (length (requests w) + i) (path d) = load text
                            ∧ heap w' !! l
                              = Some {| path := path d; md5 := md5 d; time := time d;
                                        content := Some text |}).
Proof.
  intros Hall Hans.
  destruct (fetch_bodies b resources w Hall Hans)
    as (w' & Hover & Hreq & _ & Hbodies & _).
  exists w'. split; [|done]. intros callback. apply Hover.
Qed.

Lemma fetchResources_bodies_witness :
  let w := fresh_world store empty_database in
  ∃ w', calls_back (_fetchResources browser_ok [3; 4]%positive) w [[3; 4]%positive] w'
        ∧ requests w' = ["a.js"; "b.js"]
        ∧ heap w' !! 4%positive
          = Some {| path := "b.js"; md5 := "h3"; time := "t3";
                    content := Some "// b.js" |}.
Proof.
  destruct (fetchResources_bodies browser_ok [3; 4]%positive
              (fresh_world store empty_database)) as (w' & Hcall & Hreq & Hbodies).
  - repeat constructor; vm_compute; eauto.
  - intros i l d _ _. simpl. case_decide; discriminate.
  - exists w'. split; [exact Hcall|]. split; [exact Hreq|].
    assert (NoDup [3; 4]%positive) as Hnd by (by apply (bool_decide_unpack _)).
    destruct (Hbodies Hnd 1 4%positive b_h3 eq_refl eq_refl) as (text & Hx & Hl).
    injection Hx as <-. exact Hl.
Defined.

(** The chain when the request at index [i] is the first that does not
    load. *)
Lemma fetch_stops (b : Browser) (pending : list loc) :
  ∀ w i l d,
    allocated (heap w) pending →
    answered b w (take i pending) →
    pending !! i = Some l → heap w !! l = Some d →
    xhr_get b (length (requests w) + i) (path d) = no_load →
    ∃ w', (∀ resources callback, fetch b resources callback pending w = Normal tt w')
          ∧ requests w' = requests w ++ omap (path_at (heap w)) (take (S i) pending)
          ∧ fetched b (heap w) (heap w') (take i pending).
Proof.
  induction pending as [|res pending IH]; intros w i l d Hall Hans Hi Hl Hx; [done|].
  apply Forall_cons in Hall as [[d0 Hd0] Hall].
  destruct i as [|i]; simpl in Hi.
  - injection Hi as ->. rewrite Hd0 in Hl. injection Hl as ->.
    rewrite Nat.add_0_r in Hx.
    exists (set_requests (λ r, r ++ [path d]) w). split; [|split].
    + intros resources callback. simpl. unfold deref. rewrite Hd0.
      unfold xhr_send. by rewrite Hx.
    + cbn [firstn]. by rewrite (omap_path_at_cons _ _ _ _ Hd0).
    + apply fetched_refl.
  - destruct (xhr_get b (length (requests w)) (path d0)) as [text|] eqn:Hx0; cycle 1.
    { exfalso. apply (Hans 0 res d0); [done|done|]. by rewrite Nat.add_0_r. }
    set (dc := {| path := path d0; md5 := md5 d0; time := time d0; content := Some text |}).
    set (w1 := set_requests (λ r, r ++ [path d0]) w).
    set (w2 := set_heap (λ h, <[res := dc]> h) w1).
    assert (∃ d2, heap w2 !! l = Some d2 ∧ path d2 = path d) as (d2 & Hd2 & Hp).
    { simpl. destruct (decide (l = res)) as [->|Hne].
      - rewrite lookup_insert_eq. exists dc. split; [done|]. simpl. congruence.
      - rewrite lookup_insert_ne by done. by exists d. }
    destruct (IH w2 i l d2) as (w' & Hhalt & Hreq & Hfetched); try done.
    { by apply allocated_insert. }
    { intros j l' d' Hj Hl'. simpl in Hl'.
      replace (length (requests w2) + j) with (length (requests w) + S j)
        by (simpl; rewrite length_app; simpl; lia).
      destruct (decide (l' = res)) as [->|Hne].
      - rewrite lookup_insert_eq in Hl'. injection Hl' as <-.
        by apply (Hans (S j) res d0).
      - rewrite lookup_insert_ne in Hl' by done.
        by apply (Hans (S j) l' d'). }
    { rewrite Hp. simpl. rewrite length_app. simpl.
      by replace (length (requests w) + 1 + i) with (length (requests w) + S i) by lia. }
    exists w'. split; [|split].
    + intros resources callback. simpl. unfold deref. rewrite Hd0.
      unfold xhr_send. rewrite Hx0. unfold event.
      rewrite (set_content_allocated res text _ d0) by done.
      fold dc w1 w2. by rewrite Hhalt.
    + cbn [firstn]. rewrite Hreq, (omap_path_at_cons _ _ _ _ Hd0).
      change (heap w2) with (<[res := dc]> (heap w)).
      rewrite (omap_path_at_insert (heap w) res d0 dc _ Hd0 eq_refl).
      change (requests w2) with (requests w ++ [path d0]).
      by rewrite <- app_assoc.
    + simpl. by apply (fetched_step b _ _ res d0 (length (requests w)) text).
Qed.

(** X10. The chain is sequential and stops at the first request that does not
    load: the callback is not called, the requests sent are those for the
    elements up to and including that one, and the elements before it have
    their [content] while nothing else in the store has changed. *)
Theorem fetchResources_stops (b : Browser) (resources : list loc) (w : World)
    (i : nat) (l : loc) (d : Descriptor) :
  allocated (heap w) resources →
  answered b w (take i resources) →
  resources !! i = Some l → heap w !! l = Some d →
  xhr_get b (length (requests w) + i) (path d) = no_load →
  ∃ w', halts (_fetchResources b resources) w (Normal tt w')
        ∧ requests w' = requests w ++ omap (path_at (heap w)) (take (S i) resources)
        ∧ fetched b (heap w) (heap w') (take i resources).
Proof.
  intros Hall Hans Hi Hl Hx.
  destruct (fetch_stops b resources w i l d Hall Hans Hi Hl Hx) as (w' & Hhalt & Hrest).
  exists w'. split; [|done]. intros callback. apply Hhalt.
Qed.

Lemma fetchResources_stops_witness :
  let w := fresh_world store empty_database in
  ∃ w', halts (_fetchResources browser_b_fails [3; 4; 1]%positive) w (Normal tt w')
        ∧ requests w' = ["a.js"; "b.js"]
        ∧ fetched browser_b_fails store (heap w') [3%positive].
Proof.
  apply (fetchResources_stops browser_b_fails [3; 4; 1]%positive
           (fresh_world store empty_database) 1 4%positive b_h3); try reflexivity.
  - repeat constructor; vm_compute; eauto.
  - intros [|i] l d Hi Hl; simpl in Hi; [|done].
    injection Hi as <-. injection Hl as <-. simpl. discriminate.
Defined.

(** ** More on [_fetchNewManifest] and [_loadCurrentManifest] *)

(** [alloc_manifest] keeps the objects that were in the store. *)
Lemma alloc_manifest_extends (h : Heap) (doc : ManifestDoc) :
  ∀ l d, h !! l = Some d → (alloc_manifest h doc).2 !! l = Some d.
Proof.
  unfold alloc_manifest.
  destruct (alloc_array_behind (doc_resources doc) h) as [_ Hext1].
  destruct (alloc_array h (doc_resources doc)) as [rs h1]. simpl in Hext1.
  destruct (doc_resouces doc) as [ds|]; [|done].
  destruct (alloc_array_behind ds h1) as [_ Hext2].
  destruct (alloc_array h1 ds) as [rs' h2]. simpl in *.
  intros l d Hl. by apply Hext2, Hext1.
Qed.

(** What [alloc_parsed] does to the world: it adds objects to the store. *)
Lemma alloc_parsed_world (doc : option ManifestDoc) (w : World) :
  let w1 := (alloc_parsed doc w).2 in
  nInstaller w1 = nInstaller w ∧ database w1 = database w
  ∧ requests w1 = requests w ∧ transactions w1 = transactions w
  ∧ console w1 = console w ∧ notifications w1 = notifications w
  ∧ (∀ l d, heap w !! l = Some d → heap w1 !! l = Some d)
  ∧ match doc with
    | None => (alloc_parsed doc w).1 = None
    | Some doc =>
        ∃ m, (alloc_parsed (Some doc) w).1 = Some m
             ∧ behind (heap w1) (resources (js m)) (doc_resources doc)
             ∧ (resouces (js m) = None ↔ doc_resouces doc = None)
    end.
Proof.
  unfold alloc_parsed. destruct doc as [doc|]; [|done].
  pose proof (alloc_manifest_extends (heap w) doc) as Hext.
  pose proof (alloc_manifest_behind (heap w) doc) as Hbehind.
  assert (resouces (js (alloc_manifest (heap w) doc).1) = None ↔ doc_resouces doc = None)
    as Hres.
  { unfold alloc_manifest. destruct (alloc_array (heap w) (doc_resources doc)).
    destruct (doc_resouces doc); [|done]. by destruct (alloc_array _ _). }
  destruct (alloc_manifest (heap w) doc) as [m h1]. simpl in *.
  repeat split; try done. by exists m.
Qed.

(** X11. [_fetchNewManifest] calls its callback exactly when the request loads
    and [JSON.parse] accepts the text.  The callback then sees one more
    request, for the manifest URL, the new manifest as parsed, and the
    database, the console, the current manifest and the objects of the
    store as they were.  Otherwise the step ends without the callback and
    with the installer, the store and the database untouched. *)
Theorem fetchNewManifest_outcomes (b : Browser) (w : World) :
  let url := url_of (_manifestUrl (nInstaller w)) in
  let loaded := ∃ text doc, xhr_get b (length (requests w)) url = load text
                            ∧ JSON_parse b text = Ok doc in
  ((∃ w1, calls_back (_fetchNewManifest b) w [] w1) ↔ loaded)
  ∧ (∀ w1, calls_back (_fetchNewManifest b) w [] w1 →
       requests w1 = requests w ++ [url]
       ∧ database w1 = database w ∧ console w1 = console w
       ∧ notifications w1 = notifications w ∧ transactions w1 = transactions w
       ∧ _manifestUrl (nInstaller w1) = _manifestUrl (nInstaller w)
       ∧ _currentManifest (nInstaller w1) = _currentManifest (nInstaller w)
       ∧ (∀ l d, heap w !! l = Some d → heap w1 !! l = Some d)
       ∧ ∃ text doc,
           xhr_get b (length (requests w)) url = load text
           ∧ JSON_parse b text = Ok doc
           ∧ match doc with
             | None => _newManifest (nInstaller w1) = None
             | Some doc =>
                 ∃ m, _newManifest (nInstaller w1) = Some m
                      ∧ behind (heap w1) (resources (js m)) (doc_resources doc)
             end)
  ∧ (¬ loaded →
     ∃ w', halts (_fetchNewManifest b) w (Normal tt w')
           ∧ nInstaller w' = nInstaller w ∧ heap w' = heap w
           ∧ database w' = database w ∧ notifications w' = notifications w
           ∧ transactions w' = transactions w
           ∧ requests w' = requests w ++ [url]).
Proof.
  intros url loaded.
  destruct (xhr_get b (length (requests w)) url) as [text|] eqn:Hx.
  - destruct (JSON_parse b text) as [doc|e] eqn:Hparse.
    + (* the text loads and is read *)
      pose proof (fetchNewManifest_parsed b w text doc Hx Hparse) as Hcall.
      assert (loaded) as Hloaded by (by exists text, doc).
      split; [split; [done|intros _; by eexists]|]. split; [|done].
      intros w1 Hcall1.
      rewrite (calls_back_world _ _ _ _ _ Hcall1 Hcall).
      pose proof (alloc_parsed_world doc (set_requests (λ r, r ++ [url]) w))
        as (Hi & Hdb & Hr & Ht & Hc & Hn & Hext & Hdoc).
      fold url. cbn [requests database console notifications transactions heap
                     nInstaller set_installer _manifestUrl _currentManifest
                     _newManifest].
      rewrite Hi. repeat split; try done.
      exists text, doc. split; [done|]. split; [done|].
      destruct doc as [doc|]; [|done].
      destruct Hdoc as (m' & Hm' & Hbehind & _). by exists m'.
    + (* the text is not JSON *)
      assert (halts (_fetchNewManifest b) w
                (Normal tt (set_console (λ c, c ++ [uncaught e])
                              (set_requests (λ r, r ++ [url]) w)))) as Hhalt.
      { intros callback. unfold _fetchNewManifest, xhr_send. fold url.
        rewrite Hx. unfold event. by rewrite Hparse. }
      assert (¬ loaded) as Hnot.
      { intros (text' & doc & Hx' & Hparse'). congruence. }
      split; [split; [|done]|].
      { intros [w1 Hcall]. exfalso. apply (calls_back_not_halts _ _ _ _ _ Hcall Hhalt). }
      split.
      { intros w1 Hcall. exfalso. apply (calls_back_not_halts _ _ _ _ _ Hcall Hhalt). }
      intros _. eexists. split; [exact Hhalt|]. done.
  - (* the request does not load *)
    assert (halts (_fetchNewManifest b) w
              (Normal tt (set_requests (λ r, r ++ [url]) w))) as Hhalt.
    { intros callback. unfold _fetchNewManifest, xhr_send. fold url. by rewrite Hx. }
    assert (¬ loaded) as Hnot.
    { intros (text' & doc & Hx' & Hparse'). congruence. }
    split; [split; [|done]|].
    { intros [w1 Hcall]. exfalso. apply (calls_back_not_halts _ _ _ _ _ Hcall Hhalt). }
    split.
    { intros w1 Hcall. exfalso. apply (calls_back_not_halts _ _ _ _ _ Hcall Hhalt). }
    intros _. eexists. split; [exact Hhalt|]. done.
Qed.

Lemma fetchNewManifest_outcomes_witness :
  let w := set_installer
             (λ this, {| _manifestUrl := Some "manifest.json";
                         _newManifest := _newManifest this;
                         _currentManifest := _currentManifest this |})
             (fresh_world ∅ empty_database) in
  ∃ w1, calls_back (_fetchNewManifest browser_ok) w [] w1.
Proof.
  apply (fetchNewManifest_outcomes browser_ok
           (set_installer
              (λ this, {| _manifestUrl := Some "manifest.json";
                          _newManifest := _newManifest this;
                          _currentManifest := _currentManifest this |})
              (fresh_world ∅ empty_database))).
  exists manifest_text, (Some manifest_doc). split; reflexivity.
Defined.

(** A first row that [JSON.parse] accepts, with the world in which the
    callback is called. *)
Lemma loadCurrentManifest_parsed_world (b : Browser) (w : World) (row : string)
    (rows : list string) (doc : option ManifestDoc) :
  sql_fault b (transactions w) = false →
  select_manifest (database w) = row :: rows →
  JSON_parse b row = Ok doc →
  let w0 := set_database create_manifest (set_transactions S w) in
  calls_back (_loadCurrentManifest b) w []
    (set_installer
       (λ this, {| _manifestUrl := _manifestUrl this;
                   _newManifest := _newManifest this;
                   _currentManifest := (alloc_parsed doc w0).1 |})
       (alloc_parsed doc w0).2).
Proof.
  intros Hf Hrows Hparse w0 callback. subst w0.
  unfold _loadCurrentManifest, db_transaction.
  rewrite Hf. simpl. rewrite select_create_manifest, Hrows, Hparse.
  destruct (alloc_parsed doc _) as [m w2]. apply hands_over_statement.
Qed.

(** X12. [_loadCurrentManifest] has two outcomes only.  It calls its callback
    with the table [manifest] created and its rows, the table [js], the
    requests, the console, the new manifest and the objects of the store as
    they were; or it ends without the callback, with the database as it
    was and one [console.error] of the error. *)
Theorem loadCurrentManifest_keeps_rows (b : Browser) (w : World) :
  (∃ w1, calls_back (_loadCurrentManifest b) w [] w1
         ∧ select_manifest (database w1) = select_manifest (database w)
         ∧ is_Some (table_manifest (database w1))
         ∧ table_js (database w1) = table_js (database w)
         ∧ requests w1 = requests w ∧ console w1 = console w
         ∧ notifications w1 = notifications w
         ∧ _manifestUrl (nInstaller w1) = _manifestUrl (nInstaller w)
         ∧ _newManifest (nInstaller w1) = _newManifest (nInstaller w)
         ∧ (∀ l d, heap w !! l = Some d → heap w1 !! l = Some d))
  ∨ (∃ w', halts (_loadCurrentManifest b) w (Normal tt w')
           ∧ database w' = database w
           ∧ console w' = console w ++ [console_error SQLError]
           ∧ nInstaller w' = nInstaller w ∧ heap w' = heap w
           ∧ requests w' = requests w ∧ notifications w' = notifications w).
Proof.
  destruct (sql_fault b (transactions w)) eqn:Hf.
  { right. eexists. split; [by apply loadCurrentManifest_fault|]. done. }
  destruct (select_manifest (database w)) as [|row rows] eqn:Hrows.
  { left. eexists. split; [by apply loadCurrentManifest_empty|].
    simpl. rewrite select_create_manifest, Hrows.
    repeat split; first [done | by eexists]. }
  destruct (JSON_parse b row) as [doc|e] eqn:Hparse.
  - left. eexists.
    split; [by apply (loadCurrentManifest_parsed_world b w row rows doc)|].
    pose proof (alloc_parsed_world doc
                  (set_database create_manifest (set_transactions S w)))
      as (Hi & Hdb & Hr & Ht & Hc & Hn & Hext & _).
    cbn [requests database console notifications transactions heap
         nInstaller set_installer _manifestUrl _currentManifest _newManifest].
    rewrite Hi, Hdb, Hr, Hc, Hn. simpl.
    rewrite select_create_manifest, Hrows.
    repeat split; first [done | by eexists].
  - right. eexists.
    split; [by apply (loadCurrentManifest_corrupt b w row rows e)|]. done.
Qed.

(** The current manifest that [alloc_parsed] returns depends on the store
    only. *)
Lemma alloc_parsed_heap (doc : option ManifestDoc) (w w' : World) :
  heap w = heap w' → (alloc_parsed doc w).1 = (alloc_parsed doc w').1.
Proof.
  intros Hh. unfold alloc_parsed. destruct doc as [doc|]; [|done].
  rewrite Hh. by destruct (alloc_manifest (heap w') doc).
Qed.

(** X13. Only the first row of the table [manifest] counts: with the same first
    row and any other rows after it, [_loadCurrentManifest] goes on with
    the same current manifest. *)
Theorem loadCurrentManifest_first_row (b : Browser) (w : World) (row : string)
    (rows rows' : list string) (current : option Manifest) :
  select_manifest (database w) = row :: rows →
  returns_current b w current →
  returns_current b
    (set_database (λ db, {| table_manifest := Some (row :: rows');
                            table_js := table_js db |}) w)
    current.
Proof.
  intros Hrows (w1 & Hcall & Hcur).
  set (w' := set_database _ w).
  destruct (sql_fault b (transactions w)) eqn:Hf.
  { exfalso.
    apply (calls_back_not_halts _ _ _ _ _ Hcall (loadCurrentManifest_fault b w Hf)). }
  destruct (JSON_parse b row) as [doc|e] eqn:Hparse; cycle 1.
  { exfalso.
    apply (calls_back_not_halts _ _ _ _ _ Hcall
             (loadCurrentManifest_corrupt b w row rows e Hf Hrows Hparse)). }
  pose proof (loadCurrentManifest_parsed_world b w row rows doc Hf Hrows Hparse) as Hcall2.
  rewrite (calls_back_world _ _ _ _ _ Hcall Hcall2) in Hcur. simpl in Hcur.
  eexists. split.
  - by apply (loadCurrentManifest_parsed_world b w' row rows' doc).
  - simpl. rewrite <- Hcur. by apply alloc_parsed_heap.
Qed.

Lemma loadCurrentManifest_first_row_witness :
  returns_current browser_ok
    (set_database (λ db, {| table_manifest := Some ["null"; manifest_text];
                            table_js := table_js db |})
       (fresh_world ∅ (database_with "null")))
    None.
Proof.
  apply (loadCurrentManifest_first_row browser_ok
           (fresh_world ∅ (database_with "null")) "null" [] [manifest_text] None).
  - reflexivity.
  - eexists. split.
    + by apply (loadCurrentManifest_parsed_world browser_ok
                  (fresh_world ∅ (database_with "null")) "null" [] None).
    + reflexivity.
Defined.

(** ** More on [init] *)

Lemma init_rest (b : Browser) (manifestUrl : string) (callback : Callback) (w : World) :
  init b manifestUrl callback w
  = _fetchNewManifest b (rest_of_run 1 b callback) (init_world manifestUrl w).
Proof. reflexivity. Qed.

Lemma rest_of_run_1 (b : Browser) (callback : Callback) (args : Args) (w : World) :
  rest_of_run 1 b callback args w
  = _loadCurrentManifest b (rest_of_run 2 b callback) w.
Proof. reflexivity. Qed.

Lemma rest_of_run_2 (b : Browser) (callback : Callback) (args : Args) (w : World) :
  rest_of_run 2 b callback args w
  = match calcNewResource (heap w) (_newManifest (nInstaller w))
            (_currentManifest (nInstaller w)) with
    | Ok resources => _fetchResources b resources (rest_of_run 4 b callback) w
    | Throw e => Abrupt e w
    end.
Proof.
  unfold rest_of_run, pipeline, _calcNewResource. cbn [drop start].
  by destruct (calcNewResource _ _ _).
Qed.

Lemma rest_of_run_4 (b : Browser) (callback : Callback) (resources : list loc)
    (args : Args) (w : World) :
  rest_of_run 4 b callback (resources :: args) w
  = _saveResources b resources (rest_of_run 5 b callback) w.
Proof. reflexivity. Qed.

Lemma rest_of_run_5 (b : Browser) (args : Args) (w : World) :
  rest_of_run 5 b notify args w
  = Normal tt (set_notifications (λ n, n ++ [[]]) w).
Proof. reflexivity. Qed.

(** The first two steps, with the callback in its place. *)
Lemma fetchNewManifest_eq (b : Browser) (w : World) (text : string)
    (doc : option ManifestDoc) (callback : Callback) :
  xhr_get b (length (requests w)) (url_of (_manifestUrl (nInstaller w))) = load text →
  JSON_parse b text = Ok doc →
  _fetchNewManifest b callback w
  = Normal tt (event (callback [])
                 (manifest_fetched (url_of (_manifestUrl (nInstaller w))) doc w)).
Proof.
  intros Hx Hparse. unfold _fetchNewManifest, xhr_send, manifest_fetched.
  rewrite Hx. f_equal. unfold event at 1. rewrite Hparse.
  by destruct (alloc_parsed doc _).
Qed.

Lemma loadCurrentManifest_eq (b : Browser) (w : World) (callback : Callback) :
  sql_fault b (transactions w) = false →
  (select_manifest (database w) = [] →
   _loadCurrentManifest b callback w
   = Normal tt (settle loadCurrentManifest_error no_success (set_transactions S w)
                  (callback [] (set_database create_manifest (set_transactions S w)))))
  ∧ (∀ row rows doc,
       select_manifest (database w) = row :: rows → JSON_parse b row = Ok doc →
       _loadCurrentManifest b callback w
       = Normal tt (settle loadCurrentManifest_error no_success (set_transactions S w)
                      (callback [] (manifest_loaded doc w)))).
Proof.
  intros Hf. unfold _loadCurrentManifest, db_transaction. rewrite Hf. split.
  - intros Hrows. simpl. by rewrite select_create_manifest, Hrows.
  - intros row rows doc Hrows Hparse. simpl.
    rewrite select_create_manifest, Hrows, Hparse. unfold manifest_loaded.
    by destruct (alloc_parsed doc _).
Qed.

(** Whatever the stored manifest, when the callback of
    [_loadCurrentManifest] throws wherever it is called, the step ends
    with the database as it was and an [SQLError] on the console. *)
Lemma loadCurrentManifest_abrupt (b : Browser) (w : World) (Q : World → Prop) :
  (select_manifest (database w) = [] →
   Q (set_database create_manifest (set_transactions S w))) →
  (∀ row rows doc, select_manifest (database w) = row :: rows →
                   JSON_parse b row = Ok doc → Q (manifest_loaded doc w)) →
  ∃ w', database w' = database w
        ∧ console w' = console w ++ [console_error SQLError]
        ∧ requests w' = requests w ∧ notifications w' = notifications w
        ∧ _newManifest (nInstaller w') = _newManifest (nInstaller w)
        ∧ ∀ callback,
            (∀ w1, Q w1 → ∃ e, callback [] w1 = Abrupt e w1) →
            _loadCurrentManifest b callback w = Normal tt w'.
Proof.
  intros Hempty Hrow.
  destruct (sql_fault b (transactions w)) eqn:Hf.
  { exists (set_console (λ c, c ++ [console_error SQLError]) (set_transactions S w)).
    repeat split; try done.
    intros callback _. by apply loadCurrentManifest_fault. }
  destruct (select_manifest (database w)) as [|row rows] eqn:Hrows.
  { exists (set_console (λ c, c ++ [console_error SQLError])
              (set_database (λ _, database (set_transactions S w))
                 (set_database create_manifest (set_transactions S w)))).
    repeat split; try done.
    intros callback Habrupt.
    destruct (loadCurrentManifest_eq b w callback Hf) as [Heq _].
    rewrite Heq by done.
    by destruct (Habrupt _ (Hempty eq_refl)) as [e ->]. }
  destruct (JSON_parse b row) as [doc|e] eqn:Hparse.
  - exists (set_console (λ c, c ++ [console_error SQLError])
              (set_database (λ _, database (set_transactions S w))
                 (manifest_loaded doc w))).
    pose proof (alloc_parsed_world doc
                  (set_database create_manifest (set_transactions S w)))
      as (Hi & Hdb & Hr & Ht & Hc & Hn & _).
    unfold manifest_loaded. simpl. rewrite Hr, Hc, Hn, Hi.
    repeat split; try done.
    intros callback Habrupt.
    destruct (loadCurrentManifest_eq b w callback Hf) as [_ Heq].
    rewrite (Heq row rows doc) by done.
    by destruct (Habrupt _ (Hrow row rows doc eq_refl Hparse)) as [e ->].
  - exists (set_console (λ c, c ++ [console_error SQLError])
              (set_database (λ _, database w)
                 (set_database create_manifest (set_transactions S w)))).
    repeat split; try done.
    intros callback _. by apply (loadCurrentManifest_corrupt b w row rows e).
Qed.

(** With no new manifest, [_calcNewResource] throws. *)
Lemma calcNewResource_null (h : Heap) (current : option Manifest) :
  calcNewResource h None current = Throw TypeError.
Proof.
  unfold calcNewResource. destruct current as [current|]; [|done].
  destruct (arrayToMap h (resources (js current)) "path") as [m|e] eqn:Hm; [done|].
  simpl. by rewrite (arrayToMap_from_throws _ _ _ _ _ Hm).
Qed.

(** X14. A run whose manifest does not load, or is not JSON, ends after the one
    request for it: no transaction is opened, the database and the store
    are what they were, the caller is not notified, and the installer has
    changed in its [_manifestUrl] only. *)
Theorem init_without_manifest (b : Browser) (manifestUrl : string) (w : World) :
  xhr_get b (length (requests w)) manifestUrl = no_load
  ∨ (∃ text e, xhr_get b (length (requests w)) manifestUrl = load text
               ∧ JSON_parse b text = Throw e) →
  ∃ w', halts (init b manifestUrl) w (Normal tt w')
        ∧ requests w' = requests w ++ [manifestUrl]
        ∧ transactions w' = transactions w
        ∧ database w' = database w ∧ heap w' = heap w
        ∧ notifications w' = notifications w
        ∧ nInstaller w' = nInstaller (init_world manifestUrl w).
Proof.
  intros [Hx|(text & e & Hx & Hparse)].
  - exists (set_requests (λ r, r ++ [manifestUrl]) (init_world manifestUrl w)).
    split; [|done]. intros callback. rewrite init_rest.
    unfold _fetchNewManifest, xhr_send. simpl. by rewrite Hx.
  - exists (set_console (λ c, c ++ [uncaught e])
              (set_requests (λ r, r ++ [manifestUrl]) (init_world manifestUrl w))).
    split; [|done]. intros callback. rewrite init_rest.
    unfold _fetchNewManifest, xhr_send. simpl. rewrite Hx.
    unfold event. by rewrite Hparse.
Qed.

Lemma init_without_manifest_witness :
  let w := fresh_world ∅ empty_database in
  ∃ w', halts (init browser_ok "nothing.json") w (Normal tt w')
        ∧ requests w' = requests w ++ ["nothing.json"]
        ∧ transactions w' = transactions w
        ∧ database w' = database w ∧ heap w' = heap w
        ∧ notifications w' = notifications w
        ∧ nInstaller w' = nInstaller (init_world "nothing.json" w).
Proof.
  apply (init_without_manifest browser_ok "nothing.json" (fresh_world ∅ empty_database)).
  right. exists "// nothing.json", SyntaxError. split; reflexivity.
Defined.

(** X15. A manifest that parses to [null] stops the run in [_calcNewResource],
    whatever the database holds: [js] is read from [null] inside the
    statement callback of [_loadCurrentManifest], whose transaction is
    rolled back and reports an [SQLError] with [console.error]; no
    resource is requested and the caller is not notified. *)
Theorem init_null_manifest (b : Browser) (manifestUrl : string) (w : World)
    (text : string) :
  xhr_get b (length (requests w)) manifestUrl = load text →
  JSON_parse b text = Ok None →
  ∃ w', halts (init b manifestUrl) w (Normal tt w')
        ∧ requests w' = requests w ++ [manifestUrl]
        ∧ database w' = database w
        ∧ console w' = console w ++ [console_error SQLError]
        ∧ notifications w' = notifications w
        ∧ _newManifest (nInstaller w') = None.
Proof.
  intros Hx Hparse.
  set (w1 := manifest_fetched manifestUrl None (init_world manifestUrl w)).
  destruct (loadCurrentManifest_abrupt b w1
              (λ w2, _newManifest (nInstaller w2) = None))
    as (w' & Hdb & Hc & Hr & Hn & Hnew & Hhalt).
  { done. }
  { intros row rows doc _ _. unfold manifest_loaded. simpl.
    by destruct (alloc_parsed_world doc
                   (set_database create_manifest (set_transactions S w1)))
      as (-> & _). }
  exists w'. split; [|done].
  intros callback. rewrite init_rest.
  rewrite (fetchNewManifest_eq b _ text None) by done.
  fold w1. unfold event. rewrite rest_of_run_1.
  rewrite Hhalt; [done|].
  intros w2 Hw2. exists TypeError. rewrite rest_of_run_2, Hw2.
  by rewrite calcNewResource_null.
Qed.

Lemma init_null_manifest_witness :
  let w := fresh_world ∅ empty_database in
  ∃ w', halts (init browser_null "manifest.json") w (Normal tt w')
        ∧ requests w' = requests w ++ ["manifest.json"]
        ∧ database w' = database w
        ∧ console w' = console w ++ [console_error SQLError]
        ∧ notifications w' = notifications w
        ∧ _newManifest (nInstaller w') = None.
Proof.
  apply (init_null_manifest browser_null "manifest.json"
           (fresh_world ∅ empty_database) "null"); reflexivity.
Defined.

(** X16. A run that finds a stored manifest cannot update: with a new manifest
    that has its list under [js.resources], as the first branch reads it,
    and a first row that parses to a manifest, the run ends with the
    database as it was, an [SQLError] on the console, no request but that
    for the manifest, and no notification. *)
Theorem init_stored_manifest (b : Browser) (manifestUrl : string) (w : World)
    (text row : string) (rows : list string) (doc cur : ManifestDoc) :
  xhr_get b (length (requests w)) manifestUrl = load text →
  JSON_parse b text = Ok (Some doc) →
  doc_resouces doc = None →
  select_manifest (database w) = row :: rows →
  JSON_parse b row = Ok (Some cur) →
  ∃ w', halts (init b manifestUrl) w (Normal tt w')
        ∧ requests w' = requests w ++ [manifestUrl]
        ∧ database w' = database w
        ∧ console w' = console w ++ [console_error SQLError]
        ∧ notifications w' = notifications w.
Proof.
  intros Hx Hparse Hres Hrows Hrow.
  set (w1 := manifest_fetched manifestUrl (Some doc) (init_world manifestUrl w)).
  pose proof (alloc_parsed_world (Some doc)
                (set_requests (λ r, r ++ [manifestUrl]) (init_world manifestUrl w)))
    as (Hi1 & Hdb1 & Hr1 & Ht1 & Hc1 & Hn1 & _ & (m & Hm & _ & Hmres)).
  assert (_newManifest (nInstaller w1) = Some m) as Hnew1 by done.
  assert (database w1 = database w) as Hdbw by done.
  destruct (loadCurrentManifest_abrupt b w1
              (λ w2, _newManifest (nInstaller w2) = Some m
                     ∧ ∃ c, _currentManifest (nInstaller w2) = Some c))
    as (w' & Hdb & Hc & Hr & Hn & Hnew & Hhalt).
  { rewrite Hdbw, Hrows. done. }
  { intros row' rows' doc' Hrows' Hrow'.
    rewrite Hdbw, Hrows in Hrows'. injection Hrows' as <- <-.
    rewrite Hrow in Hrow'. injection Hrow' as <-.
    pose proof (alloc_parsed_world (Some cur)
                  (set_database create_manifest (set_transactions S w1)))
      as (Hi2 & _ & _ & _ & _ & _ & _ & (c & Hc2 & _)).
    unfold manifest_loaded.
    cbn [nInstaller set_installer _newManifest _currentManifest].
    rewrite Hi2. split; [done|]. by exists c. }
  exists w'. split.
  - intros callback. rewrite init_rest.
    rewrite (fetchNewManifest_eq b _ text (Some doc)) by done.
    fold w1. unfold event. rewrite rest_of_run_1.
    rewrite Hhalt; [done|].
    intros w2 (Hw2 & c & Hc2). exists TypeError.
    rewrite rest_of_run_2, Hw2, Hc2.
    rewrite calcNewResource_resouces_undefined; [done|]. by apply Hmres.
  - rewrite Hdb, Hc, Hr, Hn. unfold w1, manifest_fetched.
    cbn [requests database console notifications set_installer].
    by rewrite Hdb1, Hc1, Hr1, Hn1.
Qed.

Lemma init_stored_manifest_witness :
  let w := fresh_world ∅ (database_with manifest_text) in
  ∃ w', halts (init browser_ok "manifest.json") w (Normal tt w')
        ∧ requests w' = requests w ++ ["manifest.json"]
        ∧ database w' = database w
        ∧ console w' = console w ++ [console_error SQLError]
        ∧ notifications w' = notifications w.
Proof.
  apply (init_stored_manifest browser_ok "manifest.json"
           (fresh_world ∅ (database_with manifest_text))
           manifest_text manifest_text [] manifest_doc manifest_doc); reflexivity.
Defined.

(** X17. A first run in which the request for one resource does not load ends
    without a word: nothing is written to the table [js], also not the
    resources that were fetched before it, the console and the record of
    notifications are what they were, and one transaction, that of
    [_loadCurrentManifest], has run. *)
Theorem init_resource_failure (b : Browser) (manifestUrl : string) (w : World)
    (text : string) (doc : ManifestDoc) (i : nat) (d : Descriptor) :
  xhr_get b (length (requests w)) manifestUrl = load text →
  JSON_parse b text = Ok (Some doc) →
  sql_fault b (transactions w) = false →
  select_manifest (database w) = [] →
  _currentManifest (nInstaller w) = None →
  doc_resources doc !! i = Some d →
  xhr_get b (S (length (requests w)) + i) (path d) = no_load →
  ∃ w', halts (init b manifestUrl) w (Normal tt w')
        ∧ table_js (database w') = table_js (database w)
        ∧ select_manifest (database w') = []
        ∧ transactions w' = S (transactions w)
        ∧ console w' = console w
        ∧ notifications w' = notifications w.
Proof.
  intros Hx Hparse Hf Hrows Hfresh Hi Hxi.
  set (w1 := manifest_fetched manifestUrl (Some doc) (init_world manifestUrl w)).
  pose proof (alloc_parsed_world (Some doc)
                (set_requests (λ r, r ++ [manifestUrl]) (init_world manifestUrl w)))
    as (Hi1 & Hdb1 & Hr1 & Ht1 & Hc1 & Hn1 & _ & (m & Hm & Hbehind & _)).
  set (w2 := set_database create_manifest (set_transactions S w1)).
  assert (_newManifest (nInstaller w2) = Some m) as Hnew2 by done.
  assert (_currentManifest (nInstaller w2) = None) as Hcur2.
  { unfold w2, w1, manifest_fetched.
    cbn [nInstaller set_installer set_database set_transactions _currentManifest].
    by rewrite Hi1. }
  assert (behind (heap w2) (resources (js m)) (doc_resources doc)) as Hbehind2 by done.
  destruct (Forall2_lookup_r _ _ _ _ _ Hbehind2 Hi) as (l & Hl & Hd).
  destruct (fetch_unanswered b (resources (js m)) w2 i l d)
    as (w3 & Hhalt & Hin3 & Hdb3 & Hc3 & Hn3 & Ht3); try done.
  { by apply (behind_allocated _ _ _ Hbehind2). }
  { assert (length (requests w2) = S (length (requests w))) as ->; [|done].
    unfold w2, w1, manifest_fetched.
    cbn [requests set_installer set_database set_transactions].
    rewrite Hr1. cbn [requests set_requests init_world set_installer].
    rewrite length_app. simpl. lia. }
  exists w3. split.
  - intros callback. rewrite init_rest.
    rewrite (fetchNewManifest_eq b _ text (Some doc)) by done.
    change (manifest_fetched _ (Some doc) _) with w1.
    unfold event. rewrite rest_of_run_1.
    destruct (loadCurrentManifest_eq b w1 (rest_of_run 2 b callback)) as [Heq _].
    { unfold w1, manifest_fetched. cbn [transactions set_installer].
      by rewrite Ht1. }
    rewrite Heq
      by (unfold w1, manifest_fetched; cbn [database set_installer]; by rewrite Hdb1).
    fold w2. rewrite rest_of_run_2, Hnew2, Hcur2. simpl.
    unfold _fetchResources. by rewrite Hhalt.
  - rewrite Hdb3, Hc3, Hn3, Ht3. unfold w2, w1, manifest_fetched.
    cbn [database console notifications transactions set_installer set_database
         set_transactions].
    rewrite Hdb1, Hc1, Hn1, Ht1.
    cbn [database console notifications transactions set_requests init_world
         set_installer].
    by rewrite select_create_manifest, Hrows.
Qed.

Lemma init_resource_failure_witness :
  let w := fresh_world ∅ empty_database in
  ∃ w', halts (init browser_a_fails "manifest.json") w (Normal tt w')
        ∧ table_js (database w') = table_js (database w)
        ∧ select_manifest (database w') = []
        ∧ transactions w' = S (transactions w)
        ∧ console w' = console w
        ∧ notifications w' = notifications w.
Proof.
  apply (init_resource_failure browser_a_fails "manifest.json"
           (fresh_world ∅ empty_database) manifest_text manifest_doc 0 a_h1);
    reflexivity.
Defined.

Lemma behind_NoDup (h : Heap) (ls : list loc) (ds : list Descriptor) :
  behind h ls ds → NoDup (path <$> ds) → NoDup ls.
Proof.
  intros Hbehind Hnd. apply NoDup_alt. intros i j l Hi Hj.
  destruct (Forall2_lookup_l _ _ _ _ _ Hbehind Hi) as (d & Hd & Hl).
  destruct (Forall2_lookup_l _ _ _ _ _ Hbehind Hj) as (d' & Hd' & Hl').
  rewrite Hl in Hl'. injection Hl' as <-.
  apply (NoDup_lookup _ i j (path d) Hnd); rewrite list_lookup_fmap.
  - by rewrite Hd.
  - by rewrite Hd'.
Qed.

Lemma behind_paths (h : Heap) (ls : list loc) (ds : list Descriptor) :
  behind h ls ds → omap (path_at h) ls = path <$> ds.
Proof.
  induction 1 as [|l d ls ds Hl _ IH]; [done|].
  rewrite (omap_path_at_cons h l d) by done. simpl. by rewrite IH.
Qed.

Lemma last_filter_unique {A : Type} (P : A → Prop) `{∀ x, Decision (P x)}
    (ls : list A) (l : A) :
  l ∈ ls → P l → (∀ x, x ∈ ls → P x → x = l) → last (filter P ls) = Some l.
Proof.
  intros Hin HP Huniq.
  assert (l ∈ filter P ls) as Hl by (by apply list_elem_of_filter).
  destruct (last (filter P ls)) as [x|] eqn:Hlast.
  - apply last_Some_elem_of in Hlast. apply list_elem_of_filter in Hlast as [HPx Hx].
    f_equal. by apply Huniq.
  - apply last_None in Hlast. rewrite Hlast in Hl. by apply elem_of_nil in Hl.
Qed.

Lemma last_filter_none {A : Type} (P : A → Prop) `{∀ x, Decision (P x)}
    (ls : list A) :
  (∀ x, x ∈ ls → ¬ P x) → last (filter P ls) = None.
Proof.
  intros Hnone. destruct (last (filter P ls)) as [x|] eqn:Hlast; [|done].
  apply last_Some_elem_of in Hlast. apply list_elem_of_filter in Hlast as [HPx Hx].
  by destruct (Hnone x Hx).
Qed.

(** X18. A first run that goes through installs the manifest: when the paths of
    its descriptors are distinct, the table [js] ends with a row for each
    of them, with its [md5], its [time] and the text that the request for
    its path brought, the other rows are what they were, the requests are
    that for the manifest followed by one for each descriptor, in order,
    and two transactions have run. *)
Theorem init_first_run_installs (b : Browser) (manifestUrl : string) (w : World)
    (doc : ManifestDoc) :
  first_run_ok b manifestUrl w doc →
  NoDup (path <$> doc_resources doc) →
  ends_with (installed b manifestUrl doc w) (init b manifestUrl notify w).
Proof.
  intros ((text & Hx & Hparse) & Hf1 & Hf2 & Hrows & Hfresh & Hans) Hnd.
  set (w1 := manifest_fetched manifestUrl (Some doc) (init_world manifestUrl w)).
  pose proof (alloc_parsed_world (Some doc)
                (set_requests (λ r, r ++ [manifestUrl]) (init_world manifestUrl w)))
    as (Hi1 & Hdb1 & Hr1 & Ht1 & Hc1 & Hn1 & _ & (m & Hm & Hbehind & _)).
  set (w2 := set_database create_manifest (set_transactions S w1)).
  set (ls := resources (js m)). set (ds := doc_resources doc).
  assert (_newManifest (nInstaller w2) = Some m) as Hnew2 by done.
  assert (_currentManifest (nInstaller w2) = None) as Hcur2.
  { unfold w2, w1, manifest_fetched.
    cbn [nInstaller set_installer set_database set_transactions _currentManifest].
    by rewrite Hi1. }
  assert (behind (heap w2) ls ds) as Hbehind2 by done.
  assert (requests w2 = requests w ++ [manifestUrl]) as Hreq2.
  { unfold w2, w1, manifest_fetched.
    cbn [requests set_installer set_database set_transactions]. by rewrite Hr1. }
  assert (transactions w2 = S (transactions w)) as Htr2.
  { unfold w2, w1, manifest_fetched.
    cbn [transactions set_installer set_database set_transactions]. by rewrite Ht1. }
  assert (table_js (database w2) = table_js (database w)) as Hjs2.
  { unfold w2, w1, manifest_fetched.
    cbn [database set_installer set_database set_transactions]. by rewrite Hdb1. }
  assert (NoDup ls) as Hndl by (by apply (behind_NoDup (heap w2) ls ds)).
  (* the resources *)
  destruct (fetch_bodies b ls w2)
    as (w3 & Hover & Hreq3 & _ & Hbodies & _ & Hdb3 & _ & _ & Htr3).
  { by apply (behind_allocated _ _ _ Hbehind2). }
  { intros i l d Hi Hl.
    destruct (Forall2_lookup_l _ _ _ _ _ Hbehind2 Hi) as (d' & Hd' & Hl').
    rewrite Hl' in Hl. injection Hl as <-.
    rewrite Hreq2, length_app. simpl.
    replace (length (requests w) + 1 + i) with (S (length (requests w)) + i) by lia.
    by apply Hans. }
  specialize (Hbodies Hndl).
  assert (∀ i l, ls !! i = Some l →
                 ∃ d text, ds !! i = Some d
                           ∧ xhr_get b (S (length (requests w)) + i) (path d) = load text
                           ∧ heap w3 !! l
                             = Some {| path := path d; md5 := md5 d; time := time d;
                                       content := Some text |}) as Hobjects.
  { intros i l Hi.
    destruct (Forall2_lookup_l _ _ _ _ _ Hbehind2 Hi) as (d & Hd & Hl).
    destruct (Hbodies i l d Hi Hl) as (body & Hbody & Hl3).
    exists d, body. split; [done|]. split; [|done].
    rewrite Hreq2, length_app in Hbody. simpl in Hbody.
    by replace (length (requests w) + 1 + i) with (S (length (requests w)) + i)
      in Hbody by lia. }
  (* the commit *)
  destruct (saveResources_commit b ls w3)
    as (w4 & t4 & Hcall & Ht4 & Hrows4 & _ & _ & _ & Hreq4 & _ & _ & Htr4).
  { by rewrite Htr3, Htr2. }
  { apply Forall_forall. intros l Hl.
    apply list_elem_of_lookup in Hl as [i Hi].
    destruct (Hobjects i l Hi) as (d & body & _ & _ & ->). by eexists. }
  (* the run *)
  rewrite init_rest.
  rewrite (fetchNewManifest_eq b _ text (Some doc)) by done.
  change (manifest_fetched _ (Some doc) _) with w1.
  apply (hands_over_ends (rest_of_run 1 b notify) [] w1); [apply hands_over_event|].
  rewrite rest_of_run_1.
  destruct (loadCurrentManifest_eq b w1 (rest_of_run 2 b notify)) as [Heq _].
  { unfold w1, manifest_fetched. cbn [transactions set_installer]. by rewrite Ht1. }
  rewrite Heq
    by (unfold w1, manifest_fetched; cbn [database set_installer]; by rewrite Hdb1).
  fold w2.
  apply (hands_over_ends (rest_of_run 2 b notify) [] w2); [apply hands_over_statement|].
  rewrite rest_of_run_2, Hnew2, Hcur2. cbn [calcNewResource]. fold ls.
  unfold _fetchResources.
  eapply hands_over_ends; [apply Hover|].
  rewrite rest_of_run_4.
  eapply hands_over_ends; [apply Hcall|].
  rewrite rest_of_run_5.
  eexists. split; [reflexivity|].
  exists t4. cbn [database requests transactions set_notifications].
  split; [done|]. split; [|split; [|split]].
  - intros i d Hd.
    destruct (Forall2_lookup_r _ _ _ _ _ Hbehind2 Hd) as (l & Hi & _).
    destruct (Hobjects i l Hi) as (d' & body & Hd' & Hbody & Hl3).
    fold ds in Hd. rewrite Hd in Hd'. injection Hd' as <-.
    exists body. split; [done|].
    rewrite Hrows4.
    rewrite (last_filter_unique _ ls l).
    + unfold row_at. by rewrite Hl3.
    + by apply (list_elem_of_lookup_2 _ i).
    + unfold path_at. by rewrite Hl3.
    + intros x Hin Hpx. apply list_elem_of_lookup in Hin as [j Hj].
      destruct (Hobjects j x Hj) as (dj & bodyj & Hdj & _ & Hx3).
      unfold path_at in Hpx. rewrite Hx3 in Hpx. simpl in Hpx.
      injection Hpx as Hpx.
      assert (j = i) as ->.
      { apply (NoDup_lookup _ j i (path d) Hnd); rewrite list_lookup_fmap.
        - fold ds. rewrite Hdj. simpl. by rewrite Hpx.
        - fold ds. by rewrite Hd. }
      congruence.
  - intros p Hp. rewrite Hrows4, last_filter_none.
    + by rewrite Hdb3, Hjs2.
    + intros x Hin Hpx. apply list_elem_of_lookup in Hin as [j Hj].
      destruct (Hobjects j x Hj) as (dj & bodyj & Hdj & _ & Hx3).
      unfold path_at in Hpx. rewrite Hx3 in Hpx. simpl in Hpx.
      injection Hpx as <-. apply Hp.
      apply list_elem_of_fmap. exists dj. split; [done|].
      by apply (list_elem_of_lookup_2 _ j).
  - rewrite Hreq4, Hreq3, Hreq2, (behind_paths _ _ _ Hbehind2).
    by rewrite <- app_assoc.
  - by rewrite Htr4, Htr3, Htr2.
Qed.

Lemma init_first_run_installs_witness :
  let w := fresh_world ∅ empty_database in
  ends_with (installed browser_ok "manifest.json" manifest_doc w)
    (init browser_ok "manifest.json" notify w).
Proof.
  apply (init_first_run_installs browser_ok "manifest.json"
           (fresh_world ∅ empty_database) manifest_doc).
  - repeat split; try reflexivity.
    + by exists manifest_text.
    + intros i d Hd. simpl. case_decide; discriminate.
  - by apply (bool_decide_unpack _).
Defined.

(** ** The record of an installation *)

Lemma record_kept_refl (w : World) : record_kept w w.
Proof. done. Qed.

Lemma record_kept_trans (w w1 w2 : World) :
  record_kept w w1 → record_kept w1 w2 → record_kept w w2.
Proof.
  intros [Hr1 Hc1] [Hr2 Hc2]. split.
  - by rewrite Hr2.
  - intros Hrows. rewrite Hc2 by (by rewrite Hr1). by apply Hc1.
Qed.

Lemma record_kept_event (handler : World → completion unit) (w : World) :
  record_kept w (world_of (handler w)) → record_kept w (event handler w).
Proof. unfold event. by destruct (handler w). Qed.

Lemma record_kept_settle (error : exn → World → completion unit)
    (success : World → completion unit) (w w1 : World) (c : completion unit) :
  (∀ e, keeps_record (error e)) → keeps_record success →
  record_kept w w1 → record_kept w (world_of c) →
  nInstaller (world_of c) = nInstaller w1 ∨ select_manifest (database w) ≠ [] →
  record_kept w (settle error success w1 c).
Proof.
  intros Herror Hsuccess Hw1 Hc Hin. unfold settle. destruct c as [[] w2|e w2].
  - eapply record_kept_trans; [exact Hc|]. apply record_kept_event, Hsuccess.
  - eapply record_kept_trans; [|apply record_kept_event, Herror].
    destruct Hw1 as [Hr1 Hc1]. split; [done|]. intros Hrows.
    destruct Hin as [Hin|Hne]; [|done]. simpl in *. rewrite Hin. by apply Hc1.
Qed.

Lemma keeps_record_fetch (b : Browser) (resources : list loc) (callback : Callback)
    (pending : list loc) :
  (∀ args, keeps_record (callback args)) →
  keeps_record (fetch b resources callback pending).
Proof.
  intros Hk. induction pending as [|res pending IH]; intros w; simpl; [apply Hk|].
  unfold deref. destruct (heap w !! res) as [d|] eqn:Hd; [|done].
  unfold xhr_send. simpl. destruct (xhr_get b _ _) as [text|]; [|done].
  set (w1 := set_requests (λ r, r ++ [path d]) w).
  apply (record_kept_trans w w1); [done|].
  apply record_kept_event.
  unfold set_content, deref. simpl. rewrite Hd. simpl.
  match goal with |- record_kept _ (world_of (fetch _ _ _ _ ?w2)) =>
    apply (record_kept_trans w1 w2); [done|apply IH] end.
Qed.

Lemma save_loop_installer (resources : list loc) :
  ∀ w, nInstaller (world_of (save_loop resources w)) = nInstaller w.
Proof.
  induction resources as [|l resources IH]; intros w; simpl; [done|].
  destruct (deref (heap w) l); [|done]. by rewrite IH.
Qed.

Lemma keeps_record_saveResources (b : Browser) (resources : list loc)
    (callback : Callback) :
  (∀ args, keeps_record (callback args)) →
  keeps_record (_saveResources b resources callback).
Proof.
  intros Hk w. unfold _saveResources, db_transaction. simpl.
  destruct (sql_fault b (transactions w)); [done|].
  set (w1 := set_transactions S w).
  pose proof (save_loop_manifest resources (set_database create_js w1)) as Hm.
  pose proof (save_loop_installer resources (set_database create_js w1)) as Hi.
  apply record_kept_settle; [done|apply Hk|done| |by left].
  split.
  - unfold select_manifest. by rewrite Hm.
  - intros _. by rewrite Hi.
Qed.

Lemma alloc_parsed_database (doc : option ManifestDoc) (w : World) :
  database (alloc_parsed doc w).2 = database w
  ∧ nInstaller (alloc_parsed doc w).2 = nInstaller w.
Proof.
  unfold alloc_parsed. destruct doc as [doc|]; [|done].
  by destruct (alloc_manifest (heap w) doc).
Qed.

Lemma keeps_record_fetchNewManifest (b : Browser) (callback : Callback) :
  (∀ args, keeps_record (callback args)) →
  keeps_record (_fetchNewManifest b callback).
Proof.
  intros Hk w. unfold _fetchNewManifest, xhr_send. simpl.
  destruct (xhr_get b _ _) as [text|]; [|done].
  set (w1 := set_requests _ w).
  apply (record_kept_trans w w1); [done|].
  apply record_kept_event.
  destruct (JSON_parse b text) as [doc|e]; [|done].
  pose proof (alloc_parsed_database doc w1) as [Hdb Hi].
  destruct (alloc_parsed doc w1) as [m w2]. simpl in Hdb, Hi.
  match goal with |- record_kept _ (world_of (callback _ ?w3)) =>
    apply (record_kept_trans w1 w3); [|apply Hk] end.
  split; simpl; [by rewrite Hdb|]. intros _. by rewrite Hi.
Qed.

Lemma keeps_record_with_resources (func : list loc → World → completion unit)
    (args : Args) :
  (∀ resources, keeps_record (func resources)) →
  keeps_record (with_resources func args).
Proof. intros Hf w. destruct args; [done|apply Hf]. Qed.

(** The rest of a run after [_loadCurrentManifest] leaves the installer's
    current manifest alone. *)
Lemma fetch_installer (b : Browser) (resources : list loc) (callback : Callback)
    (pending : list loc) :
  (∀ args w, nInstaller (world_of (callback args w)) = nInstaller w) →
  ∀ w, nInstaller (world_of (fetch b resources callback pending w)) = nInstaller w.
Proof.
  intros Hk. induction pending as [|res pending IH]; intros w; simpl; [apply Hk|].
  unfold deref. destruct (heap w !! res) as [d|] eqn:Hd; [|done].
  unfold xhr_send, event. simpl. destruct (xhr_get b _ _) as [text|]; [|done].
  unfold set_content, deref. simpl. rewrite Hd. simpl.
  match goal with |- context [fetch _ _ _ _ ?w2] =>
    pose proof (IH w2) as Hi; destruct (fetch b resources callback pending w2) end;
    simpl in *; by rewrite Hi.
Qed.

Lemma saveResources_installer (b : Browser) (resources : list loc) (callback : Callback) :
  (∀ args w, nInstaller (world_of (callback args w)) = nInstaller w) →
  ∀ w, nInstaller (world_of (_saveResources b resources callback w)) = nInstaller w.
Proof.
  intros Hk w. unfold _saveResources, db_transaction. simpl.
  destruct (sql_fault b (transactions w)); [done|].
  pose proof (save_loop_installer resources
                (set_database create_js (set_transactions S w))) as Hi.
  destruct (save_loop resources _) as [[] w2|e w2]; simpl in *.
  - unfold event. pose proof (Hk [] w2) as Hi2.
    destruct (callback [] w2); simpl in *; by rewrite Hi2.
  - done.
Qed.

Lemma rest_of_run_5_world (b : Browser) (callback : Callback) (args : Args) (w : World) :
  world_of (rest_of_run 5 b callback args w) = world_of (callback [] w).
Proof.
  unfold rest_of_run, pipeline, _complete. cbn [drop start].
  by destruct (callback [] w).
Qed.

Lemma rest_of_run_installer (b : Browser) (callback : Callback) (args : Args) :
  (∀ args w, nInstaller (world_of (callback args w)) = nInstaller w) →
  ∀ w, nInstaller (world_of (rest_of_run 2 b callback args w)) = nInstaller w.
Proof.
  intros Hk w. rewrite rest_of_run_2.
  destruct (calcNewResource _ _ _) as [resources|e]; [|done].
  apply fetch_installer. intros args4 w4.
  destruct args4 as [|resources4 args4]; [done|].
  rewrite rest_of_run_4. apply saveResources_installer. intros args5 w5.
  rewrite rest_of_run_5_world. apply Hk.
Qed.

Lemma keeps_record_rest_of_run (b : Browser) (callback : Callback) (args : Args) :
  (∀ args, keeps_record (callback args)) →
  keeps_record (rest_of_run 2 b callback args).
Proof.
  intros Hk w. rewrite rest_of_run_2.
  destruct (calcNewResource _ _ _) as [resources|e]; [|done].
  apply keeps_record_fetch. intros args4 w4.
  destruct args4 as [|resources4 args4]; [done|].
  rewrite rest_of_run_4. apply keeps_record_saveResources. intros args5 w5.
  rewrite rest_of_run_5_world. apply Hk.
Qed.

(** X19. No run records an installation.  Whatever the server and the storage
    do, and for every callback that leaves the database and the installer
    alone, the rows of the table [manifest] after [init] are those before
    it, and when there are none the current manifest is what it was: a
    page that starts without a record of an installation stays without
    one. *)
Theorem init_keeps_record (b : Browser) (manifestUrl : string) (callback : Callback)
    (w : World) :
  (∀ args w1, database (world_of (callback args w1)) = database w1) →
  (∀ args w1, nInstaller (world_of (callback args w1)) = nInstaller w1) →
  record_kept w (world_of (init b manifestUrl callback w)).
Proof.
  intros Hkd Hki.
  assert (∀ args, keeps_record (callback args)) as Hk.
  { intros args w1. split; [by rewrite Hkd|]. intros _. by rewrite Hki. }
  rewrite init_rest.
  apply (record_kept_trans w (init_world manifestUrl w)); [done|].
  apply keeps_record_fetchNewManifest. intros args1 w1.
  rewrite rest_of_run_1. unfold _loadCurrentManifest, db_transaction. simpl.
  destruct (sql_fault b (transactions w1)); [done|].
  set (w2 := set_transactions S w1).
  rewrite select_create_manifest.
  apply record_kept_settle; [done|done|done| |].
  - change (select_manifest (database w2)) with (select_manifest (database w1)).
    destruct (select_manifest (database w1)) as [|row rows] eqn:Hrows.
    + apply (record_kept_trans w1 (set_database create_manifest w2)).
      * split; [|done]. simpl. by rewrite select_create_manifest.
      * by apply keeps_record_rest_of_run.
    + destruct (JSON_parse b row) as [doc|e].
      * pose proof (alloc_parsed_database doc (set_database create_manifest w2))
          as [Hdb Hi].
        destruct (alloc_parsed doc _) as [m w3]. simpl in Hdb, Hi.
        match goal with |- record_kept _ (world_of (rest_of_run _ _ _ _ ?w4)) =>
          apply (record_kept_trans w1 w4); [|by apply keeps_record_rest_of_run] end.
        split; [|by rewrite Hrows]. simpl. rewrite Hdb. simpl.
        by rewrite select_create_manifest.
      * split; [|done]. simpl. by rewrite select_create_manifest.
  - change (select_manifest (database w2)) with (select_manifest (database w1)).
    destruct (select_manifest (database w1)) as [|row rows] eqn:Hrows; [|by right].
    left. by rewrite rest_of_run_installer.
Qed.

Lemma init_keeps_record_witness :
  let w := fresh_world ∅ empty_database in
  record_kept w (world_of (init browser_ok "manifest.json" notify w)).
Proof.
  apply (init_keeps_record browser_ok "manifest.json" notify
           (fresh_world ∅ empty_database)); intros args w1; reflexivity.
Defined.
